(** * The judge-scoring engine of [mlflow/metrics/genai/genai_metric.py]

    A shallow embedding of [_format_args_string],
    [_extract_score_and_justification], of the closure [eval_fn] built by
    [make_genai_metric] (with its inner functions
    [score_model_on_one_payload] and [aggregate_function]) and of
    [make_genai_metric] itself, followed by the properties of the scoring
    engine.

    Conventions of the embedding.
    - A Python [str] is a [string]: the sequence of its UTF-8 bytes.  The
      character classes of [re] and of [int()] are the ASCII ones; digits and
      white space outside ASCII are not recognised as such.
    - Python values are the inductive [pyval]; a [dict] is an association
      list in insertion order with distinct string keys.
    - A Python call either returns or raises: type [outcome].  An exception
      object is known by what the code observes of it (its class name,
      [str(e)], [repr(e)] and, for an MlflowException, its [error_code]).
    - What lives outside the repository's source (the judge endpoint, the
      prompt template, pandas' and float's printing, numpy's statistics over
      a non-empty list) is a field of the record [world]; the loader of
      classes and the tests of [str] that [inspect] relies on are fields of
      the record [host]. *)

From Stdlib Require Import ZArith String Ascii List Bool Lia.
From Stdlib Require Import DecimalString.
From Stdlib Require Import SpecFloat.
From stdpp Require Import base tactics option list.

Import ListNotations.
Local Open Scope string_scope.
Local Open Scope list_scope.

(** ** Text helpers *)

Notation "s +:+ t" := (String.append s t) (at level 60, right associativity).

Definition chr (n : nat) : string := String (ascii_of_nat n) EmptyString.

(** The characters that cannot be typed inside a literal. *)
Definition NL : string := chr 10.
Definition DQ : string := chr 34.
Definition BS : string := chr 92.

(** [dq s] is [s] with every apostrophe turned into a double quote; it only
    serves to write JSON texts legibly. *)
Fixpoint dq (s : string) : string :=
  match s with
  | EmptyString => EmptyString
  | String c s' => String (if Ascii.eqb c "'" then "034"%char else c) (dq s')
  end.

Fixpoint string_drop (n : nat) (s : string) : string :=
  match n, s with
  | O, _ => s
  | S n', String _ s' => string_drop n' s'
  | S _, EmptyString => EmptyString
  end.

Fixpoint string_take (n : nat) (s : string) : string :=
  match n, s with
  | S n', String c s' => String c (string_take n' s')
  | _, _ => EmptyString
  end.

Fixpoint string_mem (c : ascii) (s : string) : bool :=
  match s with
  | EmptyString => false
  | String c' s' => Ascii.eqb c c' || string_mem c s'
  end.

(** [contains sub s]: Python's [sub in s]. *)
Fixpoint contains (sub s : string) : bool :=
  String.prefix sub s ||
  match s with
  | EmptyString => false
  | String _ s' => contains sub s'
  end.

(** [sep.join(l)] *)
Fixpoint join (sep : string) (l : list string) : string :=
  match l with
  | [] => EmptyString
  | [x] => x
  | x :: l' => x +:+ sep +:+ join sep l'
  end.

Definition str_of_Z (z : Z) : string := NilZero.string_of_int (Z.to_int z).
Definition str_of_nat (n : nat) : string := NilZero.string_of_uint (Nat.to_uint n).

Definition hex_digit (n : nat) : string :=
  string_take 1 (string_drop n "0123456789abcdef").

(** [repr] of a [str]: quotes are chosen as CPython does, and the backslash,
    the chosen quote and the ASCII control characters are escaped. *)
Definition repr_char (quote c : ascii) : string :=
  let n := nat_of_ascii c in
  if Ascii.eqb c quote || Nat.eqb n 92 then BS +:+ String c EmptyString
  else if Nat.eqb n 9 then BS +:+ "t"
  else if Nat.eqb n 10 then BS +:+ "n"
  else if Nat.eqb n 13 then BS +:+ "r"
  else if Nat.ltb n 32 || Nat.eqb n 127
       then BS +:+ "x" +:+ hex_digit (n / 16) +:+ hex_digit (n mod 16)
  else String c EmptyString.

Fixpoint repr_chars (quote : ascii) (s : string) : string :=
  match s with
  | EmptyString => EmptyString
  | String c s' => repr_char quote c +:+ repr_chars quote s'
  end.

Definition repr_str (s : string) : string :=
  let quote := if string_mem "'" s && negb (string_mem "034" s)
               then "034"%char else "'"%char in
  String quote (repr_chars quote s) +:+ String quote EmptyString.

(** ** Python values *)

#[local] Unset Elimination Schemes.
Inductive pyval : Type :=
| PyNone
| PyBool (b : bool)
| PyInt (z : Z)
| PyFloat (f : spec_float)
| PyStr (s : string)
| PyList (l : list pyval)
| PyDict (d : list (string * pyval)).
#[local] Set Elimination Schemes.

Definition type_name (v : pyval) : string :=
  match v with
  | PyNone => "NoneType"
  | PyBool _ => "bool"
  | PyInt _ => "int"
  | PyFloat _ => "float"
  | PyStr _ => "str"
  | PyList _ => "list"
  | PyDict _ => "dict"
  end.

(** Truth value of an object, as tested by [if v:]. *)
Definition truthy (v : pyval) : bool :=
  match v with
  | PyNone => false
  | PyBool b => b
  | PyInt z => negb (Z.eqb z 0)
  | PyFloat (S754_zero _) => false
  | PyFloat _ => true
  | PyStr s => negb (String.eqb s EmptyString)
  | PyList l => negb (Nat.eqb (length l) 0)
  | PyDict d => negb (Nat.eqb (length d) 0)
  end.

Definition is_str (v : pyval) : bool :=
  match v with PyStr _ => true | _ => false end.

(** [isinstance(v, (int, float))]; [bool] is a subclass of [int]. *)
Definition is_int_or_float (v : pyval) : bool :=
  match v with PyInt _ | PyBool _ | PyFloat _ => true | _ => false end.

(** Dictionaries: lookup, and assignment [d[k] = v], which keeps the place of
    a key that is already there. *)
Fixpoint dict_get {A} (k : string) (d : list (string * A)) : option A :=
  match d with
  | [] => None
  | (k', v) :: d' => if String.eqb k k' then Some v else dict_get k d'
  end.

Fixpoint dict_set {A} (k : string) (v : A) (d : list (string * A))
  : list (string * A) :=
  match d with
  | [] => [(k, v)]
  | (k', v') :: d' =>
      if String.eqb k k' then (k', v) :: d' else (k', v') :: dict_set k v d'
  end.

(** [dict(pairs)] and [{**d1, **d2}]: later entries win. *)
Definition dict_of {A} (pairs : list (string * A)) : list (string * A) :=
  fold_left (fun d kv => dict_set (fst kv) (snd kv) d) pairs [].

Definition dict_update {A} (d1 d2 : list (string * A)) : list (string * A) :=
  fold_left (fun d kv => dict_set (fst kv) (snd kv) d) d2 d1.

(** ** Exceptions and outcomes *)

(** An exception object, by what the code observes of it: the name of its
    class, [str(e)], [repr(e)], and [e.error_code] when it is an instance of
    MlflowException ([None] when it is not). *)
Record exn : Type := Exn {
  exn_type : string;
  exn_str : string;
  exn_repr : string;
  exn_error_code : option string
}.

Inductive outcome (A : Type) : Type :=
| Return (a : A)
| Raise (e : exn).
Arguments Return {A} a.
Arguments Raise {A} e.

(** Sequencing of calls: the first exception raised ends the sequence.
    [x ← m; k] is stdpp's notation for [mbind (λ x, k) m]. *)
#[global] Instance outcome_ret : MRet outcome := @Return.
#[global] Instance outcome_bind : MBind outcome := λ A B k m,
  match m with
  | Return a => k a
  | Raise e => Raise e
  end.

(** A built-in exception raised with one message argument. *)
Definition builtin_error (cls msg : string) : exn :=
  Exn cls msg (cls +:+ "(" +:+ repr_str msg +:+ ")") None.

(** [KeyError(k)]: [str] of a KeyError is the [repr] of the key. *)
Definition KeyError (krepr : string) : exn :=
  Exn "KeyError" krepr ("KeyError(" +:+ krepr +:+ ")") None.

(** Names of the error codes of [mlflow.protos.databricks_pb2], as
    [ErrorCode.Name] gives them. *)
Definition INTERNAL_ERROR : string := "INTERNAL_ERROR".
Definition INVALID_PARAMETER_VALUE : string := "INVALID_PARAMETER_VALUE".
Definition BAD_REQUEST : string := "BAD_REQUEST".
Definition UNAUTHENTICATED : string := "UNAUTHENTICATED".

(** Modelled from the spec: the class MlflowException of [mlflow/exceptions.py],
    which is not among the sources: an error that carries a message and an
    error-code tag (section 7); the tag defaults to INTERNAL_ERROR and the
    message is the [str] of the constructor's argument. *)
Definition MlflowException (message error_code : string) : exn :=
  Exn "MlflowException" message
      ("MlflowException(" +:+ repr_str message +:+ ")") (Some error_code).

(** Modelled from the spec: the class MetricValue of [mlflow/metrics/base.py],
    which is not among the sources: per-row scores, per-row justifications
    and the aggregate mapping (section 3). *)
Record MetricValue : Type := mkMetricValue {
  scores : list pyval;
  justifications : list pyval;
  aggregate_results : list (string * pyval)
}.

(** The statistics [aggregate_function] knows. *)
Inductive np_fun : Type := NpMin | NpMax | NpMean | NpMedian | NpVar | NpP90.

(** ** The world outside the source *)

Record world : Type := World {
  (** [repr] of a float (CPython's shortest round-trip printing) *)
  float_repr : spec_float -> string;
  (** [repr] of a pandas Series holding the given cells *)
  series_repr : list pyval -> string;
  (** [evaluation_context["eval_prompt"].format(input=, output=,
      grading_context_columns=)] *)
  eval_prompt_format : pyval -> pyval -> string -> outcome string;
  (** [model_utils.score_model_on_payload(eval_model, payload, timeout)], for
      the call issued by the task of the given row *)
  score_model_on_payload : nat -> string -> pyval -> Z -> outcome pyval;
  (** numpy's value of a statistic over a non-empty list (for [NpP90],
      [np.percentile(x, 90)]) *)
  numpy_nonempty : np_fun -> list pyval -> outcome pyval
}.

(** ** Printing and converting values *)

Fixpoint py_repr (float_repr : spec_float -> string) (v : pyval) : string :=
  match v with
  | PyNone => "None"
  | PyBool true => "True"
  | PyBool false => "False"
  | PyInt z => str_of_Z z
  | PyFloat f => float_repr f
  | PyStr s => repr_str s
  | PyList l => "[" +:+ join ", " (List.map (py_repr float_repr) l) +:+ "]"
  | PyDict d =>
      "{" +:+ join ", " (List.map (fun kv : string * pyval =>
                           let (k, x) := kv in
                           repr_str k +:+ ": " +:+ py_repr float_repr x) d)
          +:+ "}"
  end.

(** [str(v)], which is what an f-string field [{v}] prints. *)
Definition py_str (float_repr : spec_float -> string) (v : pyval) : string :=
  match v with
  | PyStr s => s
  | _ => py_repr float_repr v
  end.

(** [repr] of a list of strings, and of the dictionary of grading columns. *)
Definition repr_str_list (l : list string) : string :=
  "[" +:+ join ", " (List.map repr_str l) +:+ "]".

Definition repr_columns (series_repr : list pyval -> string)
    (d : list (string * list pyval)) : string :=
  "{" +:+ join ", " (List.map (fun kv : string * list pyval =>
                       repr_str (fst kv) +:+ ": " +:+ series_repr (snd kv)) d)
      +:+ "}".

Definition is_digit (c : ascii) : bool :=
  let n := nat_of_ascii c in Nat.leb 48 n && Nat.leb n 57.

Definition digit_val (c : ascii) : Z := Z.of_nat (nat_of_ascii c) - 48.

(** [str.isspace] on ASCII, which is also the class [\s] of [re]: tab to
    carriage return, the four separators FS GS RS US, and the space. *)
Definition is_space (c : ascii) : bool :=
  let n := nat_of_ascii c in
  (Nat.leb 9 n && Nat.leb n 13) || (Nat.leb 28 n && Nat.leb n 32).

(** The white space that [int()] skips around the literal of an ASCII
    [str]: tab to carriage return and the space, not the four
    separators. *)
Definition is_int_space (c : ascii) : bool :=
  let n := nat_of_ascii c in
  (Nat.leb 9 n && Nat.leb n 13) || Nat.eqb n 32.

Fixpoint lstrip (s : string) : string :=
  match s with
  | String c s' => if is_int_space c then lstrip s' else s
  | EmptyString => s
  end.

Fixpoint all_space (s : string) : bool :=
  match s with
  | String c s' => is_int_space c && all_space s'
  | EmptyString => true
  end.

(** The digits of an [int()] literal after the first one: digits, each
    possibly preceded by one underscore, then only white space. *)
Fixpoint int_digits (acc : Z) (s : string) : option Z :=
  match s with
  | String c s' =>
      if is_digit c then int_digits (10 * acc + digit_val c) s'
      else if Ascii.eqb c "_" then
        match s' with
        | String d s'' =>
            if is_digit d then int_digits (10 * acc + digit_val d) s'' else None
        | EmptyString => None
        end
      else if all_space s then Some acc else None
  | EmptyString => Some acc
  end.

(** [int(s)] for a [str], base 10: white space around, an optional sign, at
    least one digit. *)
Definition int_of_str (s : string) : option Z :=
  let unsigned (t : string) :=
    match t with
    | String c t' => if is_digit c then int_digits (digit_val c) t' else None
    | EmptyString => None
    end in
  match lstrip s with
  | String "-" t => option_map Z.opp (unsigned t)
  | String "+" t => unsigned t
  | t => unsigned t
  end.

(** [int(f)] for a float: truncation towards zero. *)
Definition int_of_float (f : spec_float) : outcome Z :=
  match f with
  | S754_zero _ => Return 0%Z
  | S754_finite s m e =>
      let a := if Z.leb 0 e then (Z.pos m * 2 ^ e)%Z
               else (Z.pos m / 2 ^ (- e))%Z in
      Return (if s then (- a)%Z else a)
  | S754_infinity _ =>
      Raise (builtin_error "OverflowError"
               "cannot convert float infinity to integer")
  | S754_nan =>
      Raise (builtin_error "ValueError" "cannot convert float NaN to integer")
  end.

(** [int(v)] *)
Definition py_int (v : pyval) : outcome pyval :=
  match v with
  | PyInt z => Return (PyInt z)
  | PyBool b => Return (PyInt (if b then 1 else 0))
  | PyFloat f => z ← int_of_float f; Return (PyInt z)
  | PyStr s =>
      match int_of_str s with
      | Some z => Return (PyInt z)
      | None => Raise (builtin_error "ValueError"
                  ("invalid literal for int() with base 10: " +:+ repr_str s))
      end
  | _ => Raise (builtin_error "TypeError"
           ("int() argument must be a string, a bytes-like object or a real number, not '"
            +:+ type_name v +:+ "'"))
  end.

(** [v[k]] for a string key [k]. *)
Definition py_getitem_str (v : pyval) (k : string) : outcome pyval :=
  match v with
  | PyDict d =>
      match dict_get k d with
      | Some x => Return x
      | None => Raise (KeyError (repr_str k))
      end
  | PyStr _ => Raise (builtin_error "TypeError" "string indices must be integers")
  | PyList _ =>
      Raise (builtin_error "TypeError"
               "list indices must be integers or slices, not str")
  | _ => Raise (builtin_error "TypeError"
           ("'" +:+ type_name v +:+ "' object is not subscriptable"))
  end.

(** [v.get(k)]: only a [dict] has the method. *)
Definition py_get (v : pyval) (k : string) : outcome pyval :=
  match v with
  | PyDict d => Return (default PyNone (dict_get k d))
  | _ => Raise (builtin_error "AttributeError"
           ("'" +:+ type_name v +:+ "' object has no attribute 'get'"))
  end.

(** ** [json.loads]

    The decoder of CPython's [json] module (its C scanner, strict mode).
    Every failure of the decoder is a JSONDecodeError, so the result is an
    [option].  The limits of the interpreter (the depth of recursion, the
    bound on the digits of an [int] literal) are not modelled. *)

(** [float(literal)]: the binary64 number nearest to [m * 10^e], ties to
    even.  For a negative exponent the quotient is computed to 64 bits and
    more, with a sticky last bit, and rounded once. *)
Definition float_of_decimal (neg : bool) (m e : Z) : spec_float :=
  if Z.eqb m 0 then S754_zero neg
  else if Z.leb 0 e then
    binary_normalize 53 1024 (cond_Zopp neg (m * 10 ^ e)) 0 neg
  else
    let d := (10 ^ (- e))%Z in
    let k := Z.max 0 (64 + Z.log2 d - Z.log2 m) in
    let n := (m * 2 ^ k)%Z in
    let q := (n / d)%Z in
    let sticky := if Z.eqb (n mod d) 0 then 0%Z else 1%Z in
    binary_normalize 53 1024 (cond_Zopp neg (2 * q + sticky)) (- k - 1) neg.

Definition is_json_ws (c : ascii) : bool :=
  let n := nat_of_ascii c in
  Nat.eqb n 32 || Nat.eqb n 9 || Nat.eqb n 10 || Nat.eqb n 13.

Fixpoint skip_ws (s : string) : string :=
  match s with
  | String c s' => if is_json_ws c then skip_ws s' else s
  | EmptyString => s
  end.

(** A run of digits: its value continued from [acc], its length, the rest. *)
Fixpoint take_digits (acc : Z) (s : string) : Z * nat * string :=
  match s with
  | String c s' =>
      if is_digit c then
        let '(v, n, r) := take_digits (10 * acc + digit_val c) s' in (v, S n, r)
      else (acc, O, s)
  | EmptyString => (acc, O, s)
  end.

(** The number at the head of [s]: an optional minus sign; a zero, or a
    non-zero digit followed by digits; optionally a dot and digits;
    optionally [e] or [E], an optional sign and digits.  Without fraction
    and exponent it is an [int], otherwise a [float]. *)
Definition scan_number (s : string) : option (pyval * string) :=
  let '(neg, s1) := match s with
                    | String "-" s' => (true, s')
                    | _ => (false, s)
                    end in
  match s1 with
  | String c s2 =>
      if is_digit c then
        let '(ipart, _, r1) :=
          if Ascii.eqb c "0" then (0%Z, O, s2) else take_digits (digit_val c) s2 in
        let '(mant, nfrac, r2) :=
          match r1 with
          | String "." (String d r) =>
              if is_digit d then
                let '(v, n, r') := take_digits (10 * ipart + digit_val d) r in
                (v, Some (S n), r')
              else (ipart, None, r1)
          | _ => (ipart, None, r1)
          end in
        let '(expo, r3) :=
          match r2 with
          | String x r =>
              if Ascii.eqb x "e" || Ascii.eqb x "E" then
                let '(eneg, rs) := match r with
                                   | String "-" r' => (true, r')
                                   | String "+" r' => (false, r')
                                   | _ => (false, r)
                                   end in
                match rs with
                | String d _ =>
                    if is_digit d then
                      let '(v, _, r') := take_digits 0 rs in
                      (Some (if eneg then (- v)%Z else v), r')
                    else (None, r2)
                | EmptyString => (None, r2)
                end
              else (None, r2)
          | EmptyString => (None, r2)
          end in
        match nfrac, expo with
        | None, None => Some (PyInt (if neg then (- ipart)%Z else ipart), r3)
        | _, _ =>
            let e := (default 0%Z expo - Z.of_nat (default O nfrac))%Z in
            Some (PyFloat (float_of_decimal neg mant e), r3)
        end
      else None
  | EmptyString => None
  end.

Definition hex_val (c : ascii) : option N :=
  let n := nat_of_ascii c in
  if Nat.leb 48 n && Nat.leb n 57 then Some (N.of_nat (n - 48))
  else if Nat.leb 97 n && Nat.leb n 102 then Some (N.of_nat (n - 87))
  else if Nat.leb 65 n && Nat.leb n 70 then Some (N.of_nat (n - 55))
  else None.

(** The four hexadecimal digits of a [\uXXXX] escape. *)
Definition hex4 (s : string) : option (N * string) :=
  match s with
  | String a (String b (String c (String d r))) =>
      match hex_val a, hex_val b, hex_val c, hex_val d with
      | Some x, Some y, Some z, Some t =>
          Some ((((x * 16 + y) * 16 + z) * 16 + t)%N, r)
      | _, _, _, _ => None
      end
  | _ => None
  end.

Definition byte (n : N) : string := String (ascii_of_N n) EmptyString.

(** UTF-8 bytes of a code point. *)
Definition utf8 (cp : N) : string :=
  if (cp <? 128)%N then byte cp
  else if (cp <? 2048)%N then byte (192 + cp / 64) +:+ byte (128 + cp mod 64)
  else if (cp <? 65536)%N then
    byte (224 + cp / 4096) +:+ byte (128 + (cp / 64) mod 64)
    +:+ byte (128 + cp mod 64)
  else
    byte (240 + cp / 262144) +:+ byte (128 + (cp / 4096) mod 64)
    +:+ byte (128 + (cp / 64) mod 64) +:+ byte (128 + cp mod 64).

(** The body of a string literal, after its opening quote: the decoded
    string and what follows the closing quote.  Control characters are
    refused; a high surrogate directly followed by the escape of a low one
    makes one code point. *)
Fixpoint scanstring (fuel : nat) (s : string) : option (string * string) :=
  match fuel with
  | O => None
  | S fuel' =>
      match s with
      | EmptyString => None
      | String c s' =>
          let n := nat_of_ascii c in
          if Nat.eqb n 34 then Some (EmptyString, s')
          else if Nat.eqb n 92 then
            match s' with
            | EmptyString => None
            | String x r =>
                let plain (t : string) :=
                  match scanstring fuel' r with
                  | Some (u, rest) => Some (t +:+ u, rest)
                  | None => None
                  end in
                let k := nat_of_ascii x in
                if Nat.eqb k 34 then plain DQ
                else if Nat.eqb k 92 then plain BS
                else if Ascii.eqb x "/" then plain "/"
                else if Ascii.eqb x "b" then plain (chr 8)
                else if Ascii.eqb x "f" then plain (chr 12)
                else if Ascii.eqb x "n" then plain (chr 10)
                else if Ascii.eqb x "r" then plain (chr 13)
                else if Ascii.eqb x "t" then plain (chr 9)
                else if Ascii.eqb x "u" then
                  match hex4 r with
                  | None => None
                  | Some (c1, r1) =>
                      let single :=
                        match scanstring fuel' r1 with
                        | Some (u, rest) => Some (utf8 c1 +:+ u, rest)
                        | None => None
                        end in
                      if (55296 <=? c1)%N && (c1 <=? 56319)%N then
                        match r1 with
                        | String b1 (String b2 r2) =>
                            if Nat.eqb (nat_of_ascii b1) 92 && Ascii.eqb b2 "u" then
                              match hex4 r2 with
                              | None => None
                              | Some (c2, r3) =>
                                  if (56320 <=? c2)%N && (c2 <=? 57343)%N then
                                    match scanstring fuel' r3 with
                                    | Some (u, rest) =>
                                        Some (utf8 (65536 + (c1 - 55296) * 1024
                                                    + (c2 - 56320)) +:+ u, rest)
                                    | None => None
                                    end
                                  else single
                              end
                            else single
                        | _ => single
                        end
                      else single
                  end
                else None
            end
          else if Nat.ltb n 32 then None
          else
            match scanstring fuel' s' with
            | Some (u, rest) => Some (String c u, rest)
            | None => None
            end
      end
  end.

Definition starts (p s : string) : bool := String.prefix p s.

Definition nan : spec_float := S754_nan.

(** A value, the members of an object after its brace, the elements of an
    array after its bracket; each consumes at least one character per unit
    of fuel. *)
Fixpoint scan_once (fuel : nat) (s : string) : option (pyval * string) :=
  match fuel with
  | O => None
  | S fuel' =>
      match s with
      | EmptyString => None
      | String c s' =>
          let n := nat_of_ascii c in
          if Nat.eqb n 34 then
            match scanstring (String.length s) s' with
            | Some (t, r) => Some (PyStr t, r)
            | None => None
            end
          else if Ascii.eqb c "{" then
            match skip_ws s' with
            | String "}" r => Some (PyDict [], r)
            | body => parse_members fuel' [] body
            end
          else if Ascii.eqb c "[" then
            match skip_ws s' with
            | String "]" r => Some (PyList [], r)
            | body => parse_elements fuel' [] body
            end
          else if starts "null" s then Some (PyNone, string_drop 4 s)
          else if starts "true" s then Some (PyBool true, string_drop 4 s)
          else if starts "false" s then Some (PyBool false, string_drop 5 s)
          else if starts "NaN" s then Some (PyFloat nan, string_drop 3 s)
          else if starts "Infinity" s
               then Some (PyFloat (S754_infinity false), string_drop 8 s)
          else if starts "-Infinity" s
               then Some (PyFloat (S754_infinity true), string_drop 9 s)
          else scan_number s
      end
  end
with parse_members (fuel : nat) (acc : list (string * pyval)) (s : string)
  : option (pyval * string) :=
  match fuel with
  | O => None
  | S fuel' =>
      match s with
      | String q s' =>
          if Nat.eqb (nat_of_ascii q) 34 then
            match scanstring (String.length s) s' with
            | None => None
            | Some (key, r) =>
                match skip_ws r with
                | String ":" r1 =>
                    match scan_once fuel' (skip_ws r1) with
                    | None => None
                    | Some (v, r2) =>
                        let acc' := dict_set key v acc in
                        match skip_ws r2 with
                        | String "}" r3 => Some (PyDict acc', r3)
                        | String "," r3 => parse_members fuel' acc' (skip_ws r3)
                        | _ => None
                        end
                    end
                | _ => None
                end
            end
          else None
      | EmptyString => None
      end
  end
with parse_elements (fuel : nat) (acc : list pyval) (s : string)
  : option (pyval * string) :=
  match fuel with
  | O => None
  | S fuel' =>
      match scan_once fuel' s with
      | None => None
      | Some (v, r) =>
          match skip_ws r with
          | String "]" r1 => Some (PyList (acc ++ [v]), r1)
          | String "," r1 => parse_elements fuel' (acc ++ [v]) (skip_ws r1)
          | _ => None
          end
      end
  end.

(** [json.loads(s)] for a [str]: no byte-order mark, one value between
    optional white space, nothing after it. *)
Definition json_decode (s : string) : option pyval :=
  if starts (chr 239 +:+ chr 187 +:+ chr 191) s then None
  else
    match scan_once (2 * String.length s + 2) (skip_ws s) with
    | Some (v, r) =>
        match skip_ws r with
        | EmptyString => Some v
        | _ => None
        end
    | None => None
    end.

Definition JSONDecodeError : exn :=
  builtin_error "JSONDecodeError" "Expecting value".

(** [json.loads(v)] *)
Definition json_loads (v : pyval) : outcome pyval :=
  match v with
  | PyStr s =>
      match json_decode s with
      | Some x => Return x
      | None => Raise JSONDecodeError
      end
  | _ => Raise (builtin_error "TypeError"
           ("the JSON object must be str, bytes or bytearray, not "
            +:+ type_name v))
  end.

(** ** [re.search]

    Patterns are sequences of literal characters, greedy repetitions of a
    character class and group marks; matching backtracks over the length of
    each repetition, longest first, as the [re] module does. *)

Inductive re_item : Type :=
| Lit (c : ascii)
| Rep (cls : ascii -> bool) (lo : nat) (hi : option nat)
| Open (g : nat)
| Close (g : nat).

Fixpoint nat_get {A} (k : nat) (d : list (nat * A)) : option A :=
  match d with
  | [] => None
  | (k', v) :: d' => if Nat.eqb k k' then Some v else nat_get k d'
  end.

(** Length of the longest run of [cls] characters at the head of [s], at most
    [hi]. *)
Fixpoint run_length (cls : ascii -> bool) (hi : option nat) (s : string) : nat :=
  match s, hi with
  | _, Some O => O
  | String c s', _ =>
      if cls c then S (run_length cls (option_map Nat.pred hi) s') else O
  | EmptyString, _ => O
  end.

(** [re_match its s pos opened spans]: match [its] against [s], which starts
    at offset [pos] of the searched text; the result is the offset of the
    end of the match and the spans of the groups. *)
Fixpoint re_match (its : list re_item) (s : string) (pos : nat)
    (opened : list (nat * nat)) (spans : list (nat * (nat * nat)))
  : option (nat * list (nat * (nat * nat))) :=
  match its with
  | [] => Some (pos, spans)
  | Lit c :: its' =>
      match s with
      | String c' s' =>
          if Ascii.eqb c c' then re_match its' s' (S pos) opened spans else None
      | EmptyString => None
      end
  | Rep cls lo hi :: its' =>
      let longest := run_length cls hi s in
      if Nat.ltb longest lo then None
      else
        (fix try (k : nat) : option (nat * list (nat * (nat * nat))) :=
           match re_match its' (string_drop k s) (pos + k) opened spans with
           | Some m => Some m
           | None =>
               match k with
               | O => None
               | S k' => if Nat.leb lo k' then try k' else None
               end
           end) longest
  | Open g :: its' => re_match its' s pos ((g, pos) :: opened) spans
  | Close g :: its' =>
      match nat_get g opened with
      | Some start => re_match its' s pos opened ((g, (start, pos)) :: spans)
      | None => None
      end
  end.

(** The match object: [group g] is [m.group(g)]. *)
Record re_match_object : Type := MatchObject {
  searched : string;
  spans : list (nat * (nat * nat))
}.

Definition group (m : re_match_object) (g : nat) : string :=
  match nat_get g (spans m) with
  | Some (a, b) => String.substring a (b - a) (searched m)
  | None => EmptyString
  end.

(** The leftmost match. *)
Fixpoint search_from (its : list re_item) (text s : string) (pos : nat)
  : option re_match_object :=
  match re_match its s pos [] [] with
  | Some (_, sp) => Some (MatchObject text sp)
  | None =>
      match s with
      | String _ s' => search_from its text s' (S pos)
      | EmptyString => None
      end
  end.

Definition re_search (its : list re_item) (text : string) : option re_match_object :=
  search_from its text text 0.

Definition lits (s : string) : list re_item := List.map Lit (list_ascii_of_string s).

Definition not_newline (c : ascii) : bool := negb (Nat.eqb (nat_of_ascii c) 10).

(** The pattern of the fallback: the literal [score: ], group 1 of one or
    more digits, an optional comma, any white space, the literal
    [justification: ], group 2 of one or more characters other than a
    newline. *)
Definition score_pattern : list re_item :=
  lits "score: " ++ [Open 1; Rep is_digit 1 None; Close 1]
  ++ [Rep (Ascii.eqb ",") 0 (Some 1); Rep is_space 0 None]
  ++ lits "justification: " ++ [Open 2; Rep not_newline 1 None; Close 2].

(** ** The source: [_format_args_string] *)

(** [series[indx]] on a pandas Series with the default index: a KeyError
    when there is no such row. *)
Definition series_getitem (col : list pyval) (indx : nat) : outcome pyval :=
  match col !! indx with
  | Some v => Return v
  | None => Raise (KeyError (str_of_nat indx))
  end.

(** The loop that fills [args_dict]. *)
Fixpoint fill_args_dict (grading_context_columns : list string)
    (eval_values : list (string * list pyval)) (indx : nat)
    (args_dict : list (string * pyval)) : outcome (list (string * pyval)) :=
  match grading_context_columns with
  | [] => Return args_dict
  | arg :: rest =>
      match dict_get arg eval_values with
      | Some col =>
          v ← series_getitem col indx;
          fill_args_dict rest eval_values indx (dict_set arg v args_dict)
      | None =>
          Raise (MlflowException
                   (arg +:+ " does not exist in the eval function "
                    +:+ repr_str_list (List.map fst eval_values) +:+ ".")
                   INTERNAL_ERROR)
      end
  end.

(** [args_dict] is never [None], so the conditional of the source always
    takes its second branch. *)
Definition _format_args_string (w : world) (grading_context_columns : list string)
    (eval_values : list (string * list pyval)) (indx : nat) : outcome string :=
  args_dict ← fill_args_dict grading_context_columns eval_values indx [];
  Return ("Additional information used by the model:" +:+ NL
          +:+ join NL (List.map (fun kv : string * pyval =>
                         "key: " +:+ fst kv +:+ NL +:+ "value:" +:+ NL
                         +:+ py_str (float_repr w) (snd kv)) args_dict)).

(** ** The source: [_extract_score_and_justification] *)

Definition UnboundLocalError_text : exn :=
  builtin_error "UnboundLocalError"
    "local variable 'text' referenced before assignment".

(** The guard of the first [if]: a dict whose ["candidates"] is a non-empty
    list; the result is that list's first element. *)
Definition first_candidate (output : pyval) : option pyval :=
  match output with
  | PyDict d =>
      match dict_get "candidates" d with
      | Some (PyList (first :: _)) => Some first
      | _ => None
      end
  | _ => None
  end.

Definition failed_to_extract (w : world) (output : pyval) : string :=
  "Failed to extract score and justification. Raw output: "
  +:+ py_str (float_repr w) output.

(** The [try] statement: JSON first, and on a JSONDecodeError (no other
    exception is caught) the regular expression. *)
Definition recover_score_and_justification (w : world) (output text : pyval)
  : outcome (pyval * pyval) :=
  match (data ← json_loads text;
         score ← (x ← py_get data "score"; py_int x);
         justification ← py_get data "justification";
         Return (score, justification)) with
  | Return r => Return r
  | Raise e =>
      if String.eqb (exn_type e) "JSONDecodeError" then
        match text with
        | PyStr s =>
            match re_search score_pattern s with
            | Some m =>
                score ← py_int (PyStr (group m 1));
                Return (score, PyStr (group m 2))
            | None => Return (PyNone, PyStr (failed_to_extract w output))
            end
        | _ => Raise (builtin_error "TypeError"
                 "expected string or bytes-like object")
        end
      else Raise e
  end.

(** The local variable [text] is bound only when the guard holds; reading it
    unbound raises UnboundLocalError. *)
Definition _extract_score_and_justification (w : world) (output : pyval)
  : outcome (pyval * pyval) :=
  text_var ← match first_candidate output with
             | Some first => t ← py_getitem_str first "text"; Return (Some t)
             | None => Return None
             end;
  text ← match text_var with
         | Some t => Return t
         | None => Raise UnboundLocalError_text
         end;
  if truthy text then
    '(score, justification) ← recover_score_and_justification w output text;
    if negb (is_int_or_float score) || negb (is_str justification)
    then Return (PyNone, PyStr (failed_to_extract w output))
    else Return (score, justification)
  else Return (PyNone, PyNone).

(** ** The source: the closure [eval_fn] of [make_genai_metric] *)

(** The arguments of [make_genai_metric] that [eval_fn] closes over, and the
    two entries of [evaluation_context] it reads. *)
Record metric : Type := Metric {
  name : string;
  grading_context_columns : list string;
  aggregations : option (list string);
  max_workers : Z;
  judge_request_timeout : Z;
  (** [evaluation_context["model"]] *)
  eval_model : pyval;
  (** [evaluation_context["parameters"]] *)
  eval_parameters : list (string * pyval)
}.

(** A judge call: the row whose task issued it and the payload sent. *)
Definition judge_call : Type := nat * pyval.

Definition malformed_message (w : world) (m : metric)
    (grading_context_columns : list string)
    (eval_values : list (string * list pyval)) (e : exn) : string :=
  "Values for grading_context_columns are malformed and cannot be "
  +:+ "formatted into a prompt for metric '" +:+ name m +:+ "'." +:+ NL
  +:+ "Required columns: " +:+ repr_str_list grading_context_columns +:+ NL
  +:+ "Values: " +:+ repr_columns (series_repr w) eval_values +:+ NL
  +:+ "Error: " +:+ exn_repr e +:+ NL
  +:+ "Please check the following: " +:+ NL
  +:+ "- predictions and targets (if required) are provided correctly" +:+ NL
  +:+ "- grading_context_columns are mapped correctly using the evaluator_config "
  +:+ "parameter" +:+ NL
  +:+ "- input and output data are formatted correctly.".

(** The test of the inner [if]s of the handler: an MlflowException whose
    code is BAD_REQUEST or UNAUTHENTICATED. *)
Definition is_fatal (e : exn) : bool :=
  match exn_error_code e with
  | Some code => String.eqb code BAD_REQUEST || String.eqb code UNAUTHENTICATED
  | None => false
  end.

Definition failed_to_score (e : exn) : string :=
  "Failed to score model on payload. Error: " +:+ exn_str e.

(** One task.  Its result is what [future.result()] gives; the second
    component lists the judge calls the task made.  The metric [m] stands
    for the variables of the enclosing [make_genai_metric] that the function
    reads ([name], [judge_request_timeout]), and the world for
    [evaluation_context["eval_prompt"]] and the judge.  The handlers are
    [except Exception]: exceptions outside that class (KeyboardInterrupt,
    SystemExit) are not modelled. *)
Definition score_model_on_one_payload (w : world) (m : metric)
    (indx : nat) (input output : pyval)
    (grading_context_columns : list string)
    (eval_values : list (string * list pyval))
    (eval_parameters : list (string * pyval)) (eval_model : string)
  : outcome (pyval * pyval) * list judge_call :=
  match _format_args_string w grading_context_columns eval_values indx with
  | Raise e =>
      (Raise (MlflowException
                (malformed_message w m grading_context_columns eval_values e)
                INTERNAL_ERROR), [])
  | Return arg_string =>
      match eval_prompt_format w input output arg_string with
      | Raise e => (Raise e, [])
      | Return prompt =>
          let payload :=
            PyDict (dict_update [("prompt", PyStr prompt)] eval_parameters) in
          (match (raw_result ← score_model_on_payload w indx eval_model payload
                                  (judge_request_timeout m);
                  _extract_score_and_justification w raw_result) with
           | Return r => Return r
           | Raise e =>
               if is_fatal e
               then Raise (MlflowException (exn_str e) INTERNAL_ERROR)
               else Return (PyNone, PyStr (failed_to_score e))
           end, [(indx, payload)])
      end
  end.

(** [l[i] = x] *)
Definition list_setitem (l : list pyval) (i : nat) (x : pyval) : outcome (list pyval) :=
  if Nat.ltb i (length l) then Return (<[i := x]> l)
  else Raise (builtin_error "IndexError" "list assignment index out of range").

(** What [as_completed] does in one run: the futures it yields, in the order
    of their completion, and whether the wait then expires with futures
    still pending. *)
Record schedule : Type := Schedule {
  completion_order : list nat;
  expired : bool
}.

(** The schedules possible with [n] futures: every future is yielded at most
    once, and all of them are unless the wait expires, which can only happen
    with futures still pending. *)
Definition valid_schedule (n : nat) (sch : schedule) : Prop :=
  NoDup (completion_order sch) ∧
  Forall (λ i, i < n) (completion_order sch) ∧
  (if expired sch then length (completion_order sch) < n
   else length (completion_order sch) = n).

(** The body of the [for future in as_completed(...)] loop, over the futures
    yielded. *)
Fixpoint collect (results : list (outcome (pyval * pyval))) (order : list nat)
    (scores justifications : list pyval) : outcome (list pyval * list pyval) :=
  match order with
  | [] => Return (scores, justifications)
  | indx :: rest =>
      match results !! indx with
      | Some future_result =>
          '(score, justification) ← future_result;
          scores' ← list_setitem scores indx score;
          justifications' ← list_setitem justifications indx justification;
          collect results rest scores' justifications'
      | None => Raise (builtin_error "KeyError" "no such future")
      end
  end.

Definition TimeoutError (pending total : nat) : exn :=
  builtin_error "TimeoutError"
    (str_of_nat pending +:+ " (of " +:+ str_of_nat total
     +:+ ") futures unfinished").

(** The table [options] of [aggregate_function]. *)
Definition options : list (string * np_fun) :=
  [("min", NpMin); ("max", NpMax); ("mean", NpMean); ("median", NpMedian);
   ("variance", NpVar); ("p90", NpP90)].

(** The entries of [options] applied to a list: on the empty list [np.min]
    and [np.max] raise, [np.mean], [np.median] and [np.var] give NaN, and
    the lambda of ["p90"] gives [None] without calling numpy. *)
Definition np_apply (w : world) (f : np_fun) (x : list pyval) : outcome pyval :=
  match x with
  | [] =>
      match f with
      | NpMin =>
          Raise (builtin_error "ValueError"
            "zero-size array to reduction operation minimum which has no identity")
      | NpMax =>
          Raise (builtin_error "ValueError"
            "zero-size array to reduction operation maximum which has no identity")
      | NpMean | NpMedian | NpVar => Return (PyFloat nan)
      | NpP90 => Return PyNone
      end
  | _ => numpy_nonempty w f x
  end.

Definition aggregate_function (w : world) (aggregate_option : string)
    (scores : list pyval) : outcome pyval :=
  match dict_get aggregate_option options with
  | None =>
      Raise (MlflowException
               ("Invalid aggregate option " +:+ aggregate_option +:+ ".")
               INVALID_PARAMETER_VALUE)
  | Some f => np_apply w f scores
  end.

(** The dict comprehension over [aggregations], in order. *)
Fixpoint aggregate_all (w : world) (aggregations : list string)
    (scores_for_aggregation : list pyval) (acc : list (string * pyval))
  : outcome (list (string * pyval)) :=
  match aggregations with
  | [] => Return acc
  | option :: rest =>
      v ← aggregate_function w option scores_for_aggregation;
      aggregate_all w rest scores_for_aggregation (dict_set option v acc)
  end.

Definition is_not_None (v : pyval) : bool :=
  match v with PyNone => false | _ => true end.

(** The tasks submitted to the executor, one per pair of
    [zip(inputs, outputs)], each with its row index. *)
Definition submitted (w : world) (m : metric) (inputs outputs : list pyval)
    (eval_values : list (string * list pyval)) (eval_model : string)
  : list (outcome (pyval * pyval) * list judge_call) :=
  imap (λ indx io,
          score_model_on_one_payload w m indx (fst io) (snd io)
            (grading_context_columns m) eval_values (eval_parameters m)
            eval_model)
       (zip inputs outputs).

(** [eval_fn(predictions, metrics, inputs, *args)] in a run where
    [as_completed] behaves as [sch] says; the argument [metrics] is not
    read.  The second component lists the judge calls made by the tasks of
    the run; the executor lets every submitted task run to its end before
    the function returns or raises, so the list does not depend on [sch].
    Calls of different tasks are concurrent: the order of the list (by row)
    is not an order in time. *)
Definition eval_fn (w : world) (m : metric) (predictions inputs : list pyval)
    (args : list (list pyval)) (sch : schedule)
  : outcome MetricValue * list judge_call :=
  let eval_values := dict_of (zip (grading_context_columns m) args) in
  let outputs := predictions in
  match eval_model m with
  | PyStr eval_model =>
      let scores := replicate (length inputs) PyNone in
      let justifications := replicate (length inputs) PyNone in
      if Z.leb (max_workers m) 0 then
        (Raise (builtin_error "ValueError" "max_workers must be greater than 0"),
         [])
      else
        let futures := submitted w m inputs outputs eval_values eval_model in
        let calls := concat (List.map snd futures) in
        ('(scores, justifications) ←
            collect (List.map fst futures) (completion_order sch)
                    scores justifications;
         _ ← (if expired sch
              then Raise (TimeoutError
                            (length futures - length (completion_order sch))
                            (length futures))
              else Return tt);
         let scores_for_aggregation := List.filter is_not_None scores in
         aggregate_results ←
           match aggregations m with
           | Some aggregations =>
               aggregate_all w aggregations scores_for_aggregation []
           | None => Return []
           end;
         Return (mkMetricValue scores justifications aggregate_results),
         calls)
  | _ =>
      (Raise (MlflowException
                ("The model argument must be a string URI referring to an openai model "
                 +:+ "(openai:/gpt-3.5-turbo) or  gateway (gateway:/my-route), "
                 +:+ "passed " +:+ py_str (float_repr w) (eval_model m)
                 +:+ " instead")
                INVALID_PARAMETER_VALUE), [])
  end.

(** ** Vocabulary of the statements *)

(** The grading columns as [eval_fn] binds them. *)
Definition eval_values_of (m : metric) (args : list (list pyval))
  : list (string * list pyval) :=
  dict_of (zip (grading_context_columns m) args).

(** The task [eval_fn] submits for row [indx]. *)
Definition row_task (w : world) (m : metric) (eval_model : string)
    (args : list (list pyval)) (indx : nat) (input output : pyval)
  : outcome (pyval * pyval) * list judge_call :=
  score_model_on_one_payload w m indx input output (grading_context_columns m)
    (eval_values_of m args) (eval_parameters m) eval_model.

(** The payload the task of a row sends, given the prompt. *)
Definition payload_of (m : metric) (prompt : string) : pyval :=
  PyDict (dict_update [("prompt", PyStr prompt)] (eval_parameters m)).

(** The world [w] with another answer of the judge to the call of row
    [indx]. *)
Definition with_answer (w : world) (indx : nat) (r : outcome pyval) : world :=
  World (float_repr w) (series_repr w) (eval_prompt_format w)
    (λ i eval_model payload timeout,
       if Nat.eqb i indx then r
       else score_model_on_payload w i eval_model payload timeout)
    (numpy_nonempty w).

(** The aggregation [eval_fn] performs once the loop is over. *)
Definition aggregate_after (w : world) (m : metric) (ss : list pyval)
  : outcome (list (string * pyval)) :=
  match aggregations m with
  | Some aggs => aggregate_all w aggs (List.filter is_not_None ss) []
  | None => Return []
  end.

(** What reading column [c] for row [indx] raises, if anything: the
    MlflowException of an absent column, or the KeyError of a Series that has
    no such row. *)
Definition column_error (eval_values : list (string * list pyval))
    (c : string) (indx : nat) : option exn :=
  match dict_get c eval_values with
  | None =>
      Some (MlflowException
              (c +:+ " does not exist in the eval function "
               +:+ repr_str_list (List.map fst eval_values) +:+ ".")
              INTERNAL_ERROR)
  | Some col =>
      match col !! indx with
      | None => Some (KeyError (str_of_nat indx))
      | Some _ => None
      end
  end.

(** The message of the task of any row when column [c] is absent. *)
Definition missing_column_message (w : world) (m : metric)
    (args : list (list pyval)) (c : string) : string :=
  malformed_message w m (grading_context_columns m) (eval_values_of m args)
    (MlflowException
       (c +:+ " does not exist in the eval function "
        +:+ repr_str_list (List.map fst (eval_values_of m args)) +:+ ".")
       INTERNAL_ERROR).

(** The metric [m] with other aggregations. *)
Definition with_aggregations (m : metric) (aggs : option (list string)) : metric :=
  Metric (name m) (grading_context_columns m) aggs (max_workers m)
         (judge_request_timeout m) (eval_model m) (eval_parameters m).

(** An exception that is not an MlflowException. *)
Definition plain (e : exn) : Prop := exn_error_code e = None.

(** A judge response with one candidate. *)
Definition response (text : string) : pyval :=
  PyDict [("candidates", PyList [PyDict [("text", PyStr text)]])].

(** ** A sample world and sample metrics, for concrete runs *)

Definition text_of (v : pyval) : string :=
  match v with PyStr s => s | _ => EmptyString end.

Definition ints_of (x : list pyval) : list Z :=
  omap (λ v, match v with PyInt z => Some z | _ => None end) x.

(** A stand-in for numpy that knows the minimum and the maximum of a
    non-empty list of integers. *)
Definition sample_numpy (f : np_fun) (x : list pyval) : outcome pyval :=
  match f, ints_of x with
  | NpMin, z :: zs => Return (PyInt (fold_right Z.min z zs))
  | NpMax, z :: zs => Return (PyInt (fold_right Z.max z zs))
  | _, _ => Raise (builtin_error "NotImplementedError" "not in the sample")
  end.

(** A world whose judge answers the call of row [i] with [answers !! i], whose
    prompt template joins its three fields, and whose printing of floats
    and Series is a stand-in. *)
Definition sample_world (answers : list (outcome pyval)) : world :=
  World (λ _, "nan")
        (λ cells, "Series(" +:+ str_of_nat (length cells) +:+ ")")
        (λ input output ctx,
           Return ("Input: " +:+ text_of input +:+ NL +:+ "Output: "
                   +:+ text_of output +:+ NL +:+ ctx))
        (λ indx _ _ _,
           default (Raise (builtin_error "ConnectionError" "no answer"))
                   (answers !! indx))
        sample_numpy.

Definition sample_metric (columns : list string) (aggs : option (list string))
  : metric :=
  Metric "answer_correctness" columns aggs 10 60 (PyStr "openai:/gpt-4")
         [("temperature", PyInt 0); ("max_tokens", PyInt 200)].

Definition good_answer : outcome pyval :=
  Return (response (dq "{'score': 4, 'justification': 'good'}")).

Definition fair_answer : outcome pyval :=
  Return (response "score: 3, justification: partially correct").

Definition rate_limited : outcome pyval :=
  Raise (MlflowException "rate limit reached" "REQUEST_LIMIT_EXCEEDED").

Definition unauthenticated : outcome pyval :=
  Raise (MlflowException "invalid API key" UNAUTHENTICATED).

Definition in_order (n : nat) : schedule := Schedule (seq 0 n) false.

(** ** The source: [make_genai_metric], around [eval_fn] *)

(** The two kinds of parameter that can come up here, in the order of
    [inspect]: positional-only before positional-or-keyword. *)
Inductive parameter_kind : Type := POSITIONAL_ONLY | POSITIONAL_OR_KEYWORD.

Record parameter : Type := mkParameter {
  parameter_name : string;
  kind : parameter_kind
}.

(** What [make_genai_metric] reads of [evaluation_context], the dict that
    [to_dict()] returns: its ["model"] and ["parameters"] entries, and the
    [__str__()] of its ["eval_prompt"]. *)
Record evaluation_context : Type := EvaluationContext {
  context_model : pyval;
  context_parameters : list (string * pyval);
  eval_prompt_str : outcome string
}.

(** What lives outside the file: the loader of classes, whose result is
    the class, here its constructor followed by [to_dict()], applied to the
    positional arguments; and three tests on [str] used by [inspect]. *)
Record host : Type := Host {
  _get_class_from_string : string -> outcome (list pyval -> outcome evaluation_context);
  isidentifier : string -> bool;
  iskeyword : string -> bool;
  isdigit : string -> bool
}.

(** A name of the form [.N], which [inspect] takes for the implicit
    argument of a comprehension. *)
Definition implicit_name (h : host) (name : string) : bool :=
  match name with
  | String c rest => Ascii.eqb c "." && isdigit h rest
  | EmptyString => false
  end.

(** [Parameter(name, Parameter.POSITIONAL_OR_KEYWORD)] for a [str] name:
    [name[0]] raises on the empty name, a name [.N] becomes the
    positional-only [implicitN], and a keyword or a name that is not an
    identifier is refused. *)
Definition inspect_Parameter (h : host) (name : string) : outcome parameter :=
  match name with
  | EmptyString => Raise (builtin_error "IndexError" "string index out of range")
  | String c rest =>
      if Ascii.eqb c "." && isdigit h rest then
        let name := "implicit" +:+ rest in
        if negb (isidentifier h name)
        then Raise (builtin_error "ValueError"
                      (repr_str name +:+ " is not a valid parameter name"))
        else Return (mkParameter name POSITIONAL_ONLY)
      else
        if iskeyword h name || negb (isidentifier h name)
        then Raise (builtin_error "ValueError"
                      (repr_str name +:+ " is not a valid parameter name"))
        else Return (mkParameter name POSITIONAL_OR_KEYWORD)
  end.

(** The validation loop of [Signature(parameters)], for parameters without
    defaults: the kinds must not go down and the names must differ. *)
Fixpoint validate_parameters (parameters : list parameter)
    (top_kind : parameter_kind) (params : list string) : outcome unit :=
  match parameters with
  | [] => Return tt
  | param :: rest =>
      match kind param, top_kind with
      | POSITIONAL_ONLY, POSITIONAL_OR_KEYWORD =>
          Raise (builtin_error "ValueError"
                   ("wrong parameter order: positional or keyword parameter "
                    +:+ "before positional-only parameter"))
      | _, _ =>
          if existsb (String.eqb (parameter_name param)) params
          then Raise (builtin_error "ValueError"
                        ("duplicate parameter name: "
                         +:+ repr_str (parameter_name param)))
          else validate_parameters rest (kind param)
                 (params ++ [parameter_name param])
      end
  end.

Definition inspect_Signature (parameters : list parameter)
  : outcome (list parameter) :=
  _ ← validate_parameters parameters POSITIONAL_ONLY [];
  Return parameters.

(** The loop that appends one parameter per grading column. *)
Fixpoint append_parameters (h : host) (grading_context_columns : list string)
    (signature_parameters : list parameter) : outcome (list parameter) :=
  match grading_context_columns with
  | [] => Return signature_parameters
  | var :: rest =>
      p ← inspect_Parameter h var;
      append_parameters h rest (signature_parameters ++ [p])
  end.

(** The call of [make_metric] that [make_genai_metric] ends with: the
    closure [eval_fn], given by the variables it closes over, its
    [__signature__], and the keyword arguments. *)
Record make_metric_call : Type := MakeMetric {
  call_eval_fn : metric;
  call_signature : list parameter;
  call_greater_is_better : bool;
  call_name : string;
  call_version : string;
  call_metric_details : string
}.

(** [make_genai_metric], up to its final call of [make_metric], whose
    result it returns; [version] is a [str].  The handlers of the loader
    are [except ModuleNotFoundError] and [except Exception]. *)
Definition make_genai_metric (h : host) (name definition grading_prompt : string)
    (examples : pyval) (version : string) (model : pyval)
    (grading_context_columns : list string)
    (parameters : option (list (string * pyval)))
    (aggregations : option (list string)) (greater_is_better : bool)
    (max_workers judge_request_timeout : Z) : outcome make_metric_call :=
  let class_name :=
    "mlflow.metrics.genai.prompts." +:+ version +:+ ".EvaluationModel" in
  evaluation_model_class_module ←
    match _get_class_from_string h class_name with
    | Return c => Return c
    | Raise e =>
        if String.eqb (exn_type e) "ModuleNotFoundError"
        then Raise (MlflowException
                      ("Failed to find evaluation model for version "
                       +:+ version +:+ "."
                       +:+ "Please check the correctness of the version")
                      INVALID_PARAMETER_VALUE)
        else Raise (MlflowException
                      ("Failed to construct evaluation model " +:+ version
                       +:+ ". Error: " +:+ exn_repr e)
                      INTERNAL_ERROR)
    end;
  evaluation_context ←
    evaluation_model_class_module
      ([PyStr name; PyStr definition; PyStr grading_prompt; examples; model]
       ++ match parameters with
          | Some p => [PyDict p]
          | None => []
          end);
  p1 ← inspect_Parameter h "predictions";
  p2 ← inspect_Parameter h "metrics";
  p3 ← inspect_Parameter h "inputs";
  signature_parameters ← append_parameters h grading_context_columns [p1; p2; p3];
  signature ← inspect_Signature signature_parameters;
  metric_details ← eval_prompt_str evaluation_context;
  Return (MakeMetric
            (Metric name grading_context_columns aggregations max_workers
                    judge_request_timeout
                    (context_model evaluation_context)
                    (context_parameters evaluation_context))
            signature greater_is_better name version metric_details).

(** ** Vocabulary of the further properties *)

(** The world [w] with another numpy. *)
Definition with_numpy (w : world)
    (np : np_fun -> list pyval -> outcome pyval) : world :=
  World (float_repr w) (series_repr w) (eval_prompt_format w)
        (score_model_on_payload w) np.


(** The three shapes of a row of results: nothing, a null score with a text,
    an integer score with a text. *)
Definition row_shape (s j : pyval) : Prop :=
  (s = PyNone ∧ j = PyNone) ∨
  (s = PyNone ∧ ∃ t, j = PyStr t) ∨
  (∃ z t, s = PyInt z ∧ j = PyStr t).

Definition is_int (v : pyval) : Prop := ∃ z, v = PyInt z.

(** The payload of the task of a row, when the task gets to build one. *)
Definition row_payload (w : world) (m : metric) (args : list (list pyval))
    (indx : nat) (input output : pyval) : option pyval :=
  match _format_args_string w (grading_context_columns m)
          (eval_values_of m args) indx with
  | Return arg_string =>
      match eval_prompt_format w input output arg_string with
      | Return prompt => Some (payload_of m prompt)
      | Raise _ => None
      end
  | Raise _ => None
  end.

(** Equality of strings is decidable. *)
#[global] Instance string_eq_dec : EqDecision string := String.string_dec.

Definition is_intb (v : pyval) : bool :=
  match v with PyInt _ => true | _ => false end.

(** A numpy that refuses every list that is empty or holds anything but
    integers, and is the sample one elsewhere. *)
Definition guarded_numpy (f : np_fun) (x : list pyval) : outcome pyval :=
  if negb (Nat.eqb (length x) 0) && forallb is_intb x then sample_numpy f x
  else Raise (builtin_error "AssertionError" "numpy was given no list of integers").


(** Every character of [s] satisfies [p]. *)
Fixpoint string_forall (p : ascii -> bool) (s : string) : bool :=
  match s with
  | EmptyString => true
  | String c s' => p c && string_forall p s'
  end.

(** The names of the first three parameters of [eval_fn]. *)
Definition eval_fn_parameters : list string := ["predictions"; "metrics"; "inputs"].

(** A name that [Parameter] accepts as positional-or-keyword. *)
Definition valid_name (h : host) (name : string) : Prop :=
  name ≠ EmptyString ∧ implicit_name h name = false ∧
  iskeyword h name = false ∧ isidentifier h name = true.

Definition is_alpha (c : ascii) : bool :=
  let n := nat_of_ascii c in
  (Nat.leb 65 n && Nat.leb n 90) || (Nat.leb 97 n && Nat.leb n 122)
  || Nat.eqb n 95.

(** A host for concrete runs: it knows the rubric of version [v1] and
    the identifiers, keywords and digits of ASCII. *)
Definition sample_host : host :=
  Host (λ class_name,
          if String.eqb class_name "mlflow.metrics.genai.prompts.v1.EvaluationModel"
          then Return (λ args,
                 Return (EvaluationContext
                           (default PyNone (args !! 4))
                           (match args !! 5 with
                            | Some (PyDict p) => p
                            | _ => [("temperature", PyInt 0)]
                            end)
                           (Return "Task: grade the answer.")))
          else Raise (builtin_error "ModuleNotFoundError"
                        ("No module named " +:+ repr_str class_name)))
       (λ s, match s with
             | String c rest =>
                 is_alpha c && string_forall (λ d, is_alpha d || is_digit d) rest
             | EmptyString => false
             end)
       (λ s, existsb (String.eqb s)
               ["False"; "None"; "True"; "and"; "as"; "assert"; "async";
                "await"; "break"; "class"; "continue"; "def"; "del"; "elif";
                "else"; "except"; "finally"; "for"; "from"; "global"; "if";
                "import"; "in"; "is"; "lambda"; "nonlocal"; "not"; "or";
                "pass"; "raise"; "return"; "try"; "while"; "with"; "yield"])
       (λ s, match s with
             | EmptyString => false
             | _ => string_forall is_digit s
             end).

(** ** Proof automation *)

(** Closes the goals about the exception of a built-in call. *)
Ltac plain_raise :=
  repeat match goal with
         | H : Raise _ = Raise _ |- _ => injection H as <-
         | H : Return _ = Raise _ |- _ => discriminate H
         | |- plain (builtin_error _ _) => reflexivity
         | |- plain (KeyError _) => reflexivity
         end.

(** Closes the goals on a concrete schedule. *)
Ltac concrete_schedule :=
  split_and!; [by apply (bool_decide_unpack _); vm_compute.. | reflexivity].

(** * Properties *)

(** ** Notation of the texts *)

Lemma dq_example :
  dq "{'score': 4}" = "{" +:+ DQ +:+ "score" +:+ DQ +:+ ": 4}".
Proof. reflexivity. Qed.

(** ** Sequencing *)

Lemma bind_Return {A B} (a : A) (k : A → outcome B) :
  (x ← Return a; k x) = k a.
Proof. reflexivity. Qed.

Lemma bind_Raise {A B} (e : exn) (k : A → outcome B) :
  (x ← Raise e; k x) = Raise e.
Proof. reflexivity. Qed.

Lemma bind_Return_inv {A B} (m : outcome A) (k : A → outcome B) (b : B) :
  (x ← m; k x) = Return b → ∃ a, m = Return a ∧ k a = Return b.
Proof. destruct m as [a|e]; [eauto | discriminate]. Qed.

Lemma bind_Raise_inv {A B} (m : outcome A) (k : A → outcome B) (e : exn) :
  (x ← m; k x) = Raise e → m = Raise e ∨ ∃ a, m = Return a ∧ k a = Raise e.
Proof. destruct m as [a|e']; [eauto | intros [= ->]; auto]. Qed.

(** ** The exceptions of the parser are never MlflowExceptions *)

Create HintDb plain.

Lemma plain_not_fatal e : plain e → is_fatal e = false.
Proof. unfold plain, is_fatal. by intros ->. Qed.

Lemma is_fatal_true e :
  is_fatal e = true ↔
  exn_error_code e = Some BAD_REQUEST ∨ exn_error_code e = Some UNAUTHENTICATED.
Proof.
  unfold is_fatal. destruct (exn_error_code e) as [code|].
  - rewrite orb_true_iff, !String.eqb_eq.
    split; intros [?|?]; [left|right|left|right]; congruence.
  - split; [discriminate | intros [?|?]; discriminate].
Qed.

Lemma is_fatal_false e :
  exn_error_code e ≠ Some BAD_REQUEST →
  exn_error_code e ≠ Some UNAUTHENTICATED →
  is_fatal e = false.
Proof.
  intros Hb Hu. destruct (is_fatal e) eqn:Hfatal; [|done].
  apply is_fatal_true in Hfatal as [?|?]; done.
Qed.

Lemma int_of_float_plain f e : int_of_float f = Raise e → plain e.
Proof. destruct f; simpl; intros; plain_raise. Qed.

Lemma py_int_plain v e : py_int v = Raise e → plain e.
Proof.
  destruct v as [ | b | z | f | s | l | d ]; simpl; intros H; plain_raise.
  - destruct (int_of_float f) eqn:Hf; simpl in H; plain_raise.
    by eapply int_of_float_plain.
  - destruct (int_of_str s); plain_raise.
Qed.

Lemma py_get_plain v k e : py_get v k = Raise e → plain e.
Proof. destruct v; simpl; intros; plain_raise. Qed.

Lemma py_getitem_str_plain v k e : py_getitem_str v k = Raise e → plain e.
Proof.
  destruct v as [ | | | | | | d ]; simpl; intros H; plain_raise.
  destruct (dict_get k d); plain_raise.
Qed.

Lemma json_loads_plain v e : json_loads v = Raise e → plain e.
Proof.
  destruct v as [ | | | | s | | ]; simpl; intros H; plain_raise.
  destruct (json_decode s); plain_raise. reflexivity.
Qed.

#[local] Hint Resolve py_int_plain py_get_plain py_getitem_str_plain
  json_loads_plain : plain.

Lemma recover_plain w output text e :
  recover_score_and_justification w output text = Raise e → plain e.
Proof.
  unfold recover_score_and_justification.
  destruct (_ ← json_loads text; _) as [r|e'] eqn:Htry; [discriminate|].
  assert (plain e') as He'.
  { apply bind_Raise_inv in Htry as [H|(data & _ & H)]; [eauto with plain|].
    apply bind_Raise_inv in H as [H|(score & _ & H)].
    - apply bind_Raise_inv in H as [H|(x & _ & H)]; eauto with plain.
    - apply bind_Raise_inv in H as [H|(j & _ & H)];
        [eauto with plain | discriminate]. }
  destruct (String.eqb _ _); [|by intros [= <-]].
  destruct text as [ | | | | s | | ]; intros H; plain_raise.
  destruct (re_search score_pattern s) as [mo|]; [|discriminate].
  apply bind_Raise_inv in H as [H|(x & _ & H)];
    [eauto with plain | discriminate].
Qed.

Lemma extract_plain w output e :
  _extract_score_and_justification w output = Raise e → plain e.
Proof.
  unfold _extract_score_and_justification. intros H.
  apply bind_Raise_inv in H as [H|(text_var & _ & H)].
  { destruct (first_candidate output) as [first|]; [|discriminate].
    apply bind_Raise_inv in H as [H|(t & _ & H)];
      [eauto with plain | discriminate]. }
  apply bind_Raise_inv in H as [H|(text & _ & H)].
  { destruct text_var; [discriminate|]. by injection H as <-. }
  destruct (truthy text); [|discriminate].
  apply bind_Raise_inv in H as [H|([score justification] & _ & H)];
    [by eapply recover_plain|].
  by destruct (_ || _).
Qed.

(** ** The parser, path by path *)

(** Without a candidate the variable [text] is unbound. *)
Lemma parser_raises_on_empty_candidates w :
  _extract_score_and_justification w (PyDict [("candidates", PyList [])])
  = Raise UnboundLocalError_text ∧
  _extract_score_and_justification w (PyDict []) = Raise UnboundLocalError_text ∧
  _extract_score_and_justification w PyNone = Raise UnboundLocalError_text.
Proof. by split_and!. Qed.

(** With a candidate, no text gives [(None, None)]. *)
Lemma parser_no_text w output first text :
  first_candidate output = Some first →
  py_getitem_str first "text" = Return text →
  truthy text = false →
  _extract_score_and_justification w output = Return (PyNone, PyNone).
Proof.
  intros H1 H2 H3. unfold _extract_score_and_justification.
  by rewrite H1, H2, !bind_Return, H3.
Qed.

(** A text that [json.loads] refuses and the pattern does not match gives a
    null score and the diagnostic that quotes the raw response. *)
Lemma parser_diagnostic_unparseable w output first s :
  first_candidate output = Some first →
  py_getitem_str first "text" = Return (PyStr s) →
  s ≠ EmptyString →
  json_decode s = None →
  re_search score_pattern s = None →
  _extract_score_and_justification w output
  = Return (PyNone,
            PyStr ("Failed to extract score and justification. Raw output: "
                   +:+ py_str (float_repr w) output)).
Proof.
  intros H1 H2 Hs Hj Hre. unfold _extract_score_and_justification.
  rewrite H1, H2, !bind_Return. simpl truthy.
  destruct (String.eqb_spec s EmptyString) as [|_]; [done|]. simpl negb.
  unfold recover_score_and_justification. simpl. by rewrite Hj, Hre.
Qed.

(** So does a recovered pair whose score is not a number or whose
    justification is not a [str]. *)
Lemma parser_diagnostic_recovered w output first text score justification :
  first_candidate output = Some first →
  py_getitem_str first "text" = Return text →
  truthy text = true →
  recover_score_and_justification w output text
  = Return (score, justification) →
  is_int_or_float score = false ∨ is_str justification = false →
  _extract_score_and_justification w output
  = Return (PyNone,
            PyStr ("Failed to extract score and justification. Raw output: "
                   +:+ py_str (float_repr w) output)).
Proof.
  intros H1 H2 H3 H4 H5. unfold _extract_score_and_justification.
  rewrite H1, H2, !bind_Return, H3, H4, bind_Return.
  by destruct H5 as [-> | ->]; rewrite ?orb_true_r.
Qed.

(** The score the parser returns is an [int] or [None]. *)
Lemma parser_score_int_or_None w output score justification :
  _extract_score_and_justification w output = Return (score, justification) →
  score = PyNone ∨ ∃ z, score = PyInt z.
Proof.
  unfold _extract_score_and_justification. intros H.
  apply bind_Return_inv in H as (text_var & _ & H).
  apply bind_Return_inv in H as (text & _ & H).
  destruct (truthy text); [|injection H as <- <-; by left].
  apply bind_Return_inv in H as ([s j] & Hrec & H).
  destruct (_ || _); injection H as <- <-; [by left|].
  unfold recover_score_and_justification in Hrec.
  assert (∀ v x, py_int v = Return x → ∃ z, x = PyInt z) as Hint.
  { intros v x Hx. destruct v as [ | b | z | f | t | l | d ]; simpl in Hx;
      try discriminate; try (injection Hx as <-; by eauto).
    - apply bind_Return_inv in Hx as (z & _ & Hx). injection Hx as <-. eauto.
    - destruct (int_of_str t); [injection Hx as <-; eauto | discriminate]. }
  destruct (_ ← json_loads text; _) as [r|e] eqn:Htry.
  - injection Hrec as ->.
    apply bind_Return_inv in Htry as (data & _ & Htry).
    apply bind_Return_inv in Htry as (sc & Hsc & Htry).
    apply bind_Return_inv in Htry as (ju & _ & Htry). injection Htry as <- <-.
    apply bind_Return_inv in Hsc as (x & _ & Hsc). right. by eapply Hint.
  - destruct (String.eqb _ _); [|discriminate].
    destruct text as [ | | | | t | | ]; try discriminate.
    destruct (re_search score_pattern t) as [mo|].
    + apply bind_Return_inv in Hrec as (x & Hx & Hrec). injection Hrec as <- <-.
      right. by eapply Hint.
    + injection Hrec as <- <-. by left.
Qed.

(** ** The collection loop *)

Lemma list_setitem_Return l i x l' :
  list_setitem l i x = Return l' → i < length l ∧ l' = <[i := x]> l.
Proof.
  unfold list_setitem. destruct (Nat.ltb_spec i (length l)); [|discriminate].
  by intros [= <-].
Qed.

Lemma list_setitem_lt l i x :
  i < length l → list_setitem l i x = Return (<[i := x]> l).
Proof.
  unfold list_setitem. intros H. by destruct (Nat.ltb_spec i (length l)); [|lia].
Qed.

Section CollectionLoop.
Variable results : list (outcome (pyval * pyval)).

(** What a completed loop has written: at every index yielded, the result
    of that index's future; elsewhere nothing. *)
Lemma collect_Return order :
  ∀ ss js ss' js',
    collect results order ss js = Return (ss', js') →
    length ss' = length ss ∧ length js' = length js ∧
    (∀ i, i ∈ order →
          ∃ s j, results !! i = Some (Return (s, j)) ∧
                 ss' !! i = Some s ∧ js' !! i = Some j) ∧
    (∀ i, i ∉ order → ss' !! i = ss !! i ∧ js' !! i = js !! i).
Proof.
  induction order as [|indx rest IH]; intros ss js ss' js' H; simpl in H.
  { injection H as <- <-. split_and!; [done..| |done].
    intros i Hi. by inversion Hi. }
  destruct (results !! indx) as [r|] eqn:Hr; [|discriminate].
  apply bind_Return_inv in H as ([s j] & -> & H).
  apply bind_Return_inv in H as (ss1 & Hs & H).
  apply bind_Return_inv in H as (js1 & Hj & H).
  apply list_setitem_Return in Hs as [Hlts ->].
  apply list_setitem_Return in Hj as [Hltj ->].
  apply IH in H as (Hls & Hlj & Hin & Hout).
  rewrite !length_insert in Hls, Hlj.
  split_and!; [done..| |].
  - intros i Hi.
    destruct (decide (i ∈ rest)) as [Hrest|Hrest]; [by apply Hin|].
    apply elem_of_cons in Hi as [->|]; [|done].
    destruct (Hout indx Hrest) as [-> ->].
    exists s, j. by rewrite !list_lookup_insert_eq.
  - intros i Hi. apply not_elem_of_cons in Hi as [Hne Hrest].
    destruct (Hout i Hrest) as [-> ->].
    by rewrite !list_lookup_insert_ne.
Qed.

(** The loop completes when every future yielded has a result and a
    slot. *)
Lemma collect_complete order :
  ∀ ss js,
    (∀ i, i ∈ order → i < length ss ∧ i < length js ∧
                      ∃ r, results !! i = Some (Return r)) →
    ∃ ss' js', collect results order ss js = Return (ss', js').
Proof.
  induction order as [|indx rest IH]; intros ss js H; simpl; [by eauto|].
  destruct (H indx) as (Hs & Hj & [s j] & ->); [by left|].
  rewrite bind_Return, (list_setitem_lt _ _ _ Hs), bind_Return,
    (list_setitem_lt _ _ _ Hj), bind_Return.
  apply IH. intros i Hi. rewrite !length_insert. apply H. by right.
Qed.

(** A future that raised ends the loop with an exception, whatever the
    order. *)
Lemma collect_Raise order i e :
  i ∈ order → results !! i = Some (Raise e) →
  ∀ ss js, ∃ e', collect results order ss js = Raise e'.
Proof.
  induction order as [|indx rest IH]; intros Hi Hr ss js; [by inversion Hi|].
  simpl. destruct (results !! indx) as [[[s j]|e1]|] eqn:Hx; [|by eauto..].
  rewrite bind_Return.
  destruct (list_setitem ss indx s) as [ss1|]; [|by eauto].
  rewrite bind_Return.
  destruct (list_setitem js indx j) as [js1|]; [|by eauto].
  rewrite bind_Return.
  apply elem_of_cons in Hi as [->|Hi]; [congruence|]. by apply IH.
Qed.

(** Two completion orders that yield the same futures write the same
    lists. *)
Lemma collect_order_irrelevant o1 o2 ss js r1 r2 :
  (∀ i, i ∈ o1 ↔ i ∈ o2) →
  collect results o1 ss js = Return r1 →
  collect results o2 ss js = Return r2 →
  r1 = r2.
Proof.
  destruct r1 as [s1 j1], r2 as [s2 j2]. intros Hsame H1 H2.
  apply collect_Return in H1 as (_ & _ & Hin1 & Hout1).
  apply collect_Return in H2 as (_ & _ & Hin2 & Hout2).
  assert (∀ i, s1 !! i = s2 !! i ∧ j1 !! i = j2 !! i) as Heq.
  { intros i. destruct (decide (i ∈ o1)) as [Hi|Hi].
    - destruct (Hin1 i Hi) as (s & j & Hr & -> & ->).
      destruct (Hin2 i) as (s' & j' & Hr' & -> & ->); [by apply Hsame|].
      rewrite Hr in Hr'. by injection Hr' as <- <-.
    - destruct (Hout1 i Hi) as [-> ->].
      destruct (Hout2 i) as [-> ->]; [by rewrite <-Hsame|done]. }
  f_equal; apply list_eq; intros i; apply Heq.
Qed.
End CollectionLoop.

(** The loop stops at the first future whose result raises. *)
Lemma collect_first_Raise results pre i post e :
  results !! i = Some (Raise e) →
  ∀ ss js,
    (∀ k, k ∈ pre → k < length ss ∧ k < length js ∧
                    ∃ r, results !! k = Some (Return r)) →
    collect results (pre ++ i :: post) ss js = Raise e.
Proof.
  intros Hi. induction pre as [|k pre IH]; intros ss js Hpre; simpl.
  - by rewrite Hi.
  - destruct (Hpre k) as (Hs & Hj & [s j] & ->); [by left|].
    rewrite bind_Return, (list_setitem_lt _ _ _ Hs), bind_Return,
      (list_setitem_lt _ _ _ Hj), bind_Return.
    apply IH. intros k' Hk'. rewrite !length_insert. apply Hpre. by right.
Qed.

(** ** Schedules *)

(** A schedule that does not expire yields every future. *)
Lemma valid_schedule_all n sch i :
  valid_schedule n sch → expired sch = false → i < n →
  i ∈ completion_order sch.
Proof.
  intros (Hnd & Hlt & Hlen) Hexp Hi. rewrite Hexp in Hlen.
  assert (completion_order sch ≡ₚ seq 0 n) as Hperm.
  { apply submseteq_length_Permutation; [|by rewrite length_seq, Hlen].
    apply NoDup_submseteq; [done|]. intros x Hx.
    rewrite Forall_forall in Hlt. apply elem_of_seq. split; [lia|].
    by apply Hlt. }
  rewrite Hperm. apply elem_of_seq. lia.
Qed.

Lemma valid_schedule_lt n sch i :
  valid_schedule n sch → i ∈ completion_order sch → i < n.
Proof. intros (_ & Hlt & _) Hi. rewrite Forall_forall in Hlt. by apply Hlt. Qed.

Lemma valid_schedules_same_futures n sch sch' :
  valid_schedule n sch → expired sch = false →
  valid_schedule n sch' → expired sch' = false →
  ∀ i, i ∈ completion_order sch ↔ i ∈ completion_order sch'.
Proof.
  intros Hv He Hv' He' i. split; intros Hi.
  - apply (valid_schedule_all n); [done..|]. by apply (valid_schedule_lt n sch).
  - apply (valid_schedule_all n); [done..|]. by apply (valid_schedule_lt n sch').
Qed.

Lemma in_order_valid n : valid_schedule n (in_order n).
Proof.
  repeat split; simpl.
  - apply NoDup_seq.
  - apply Forall_forall. intros i Hi. apply elem_of_seq in Hi. lia.
  - apply length_seq.
Qed.

(** ** Grading columns and tasks *)

Lemma fill_args_dict_raise ev i e c after :
  column_error ev c i = Some e →
  ∀ before acc,
    Forall (λ b, column_error ev b i = None) before →
    fill_args_dict (before ++ c :: after) ev i acc = Raise e.
Proof.
  intros Hc before. induction before as [|b before IH]; intros acc Hb; simpl.
  - unfold column_error in Hc.
    destruct (dict_get c ev) as [col|]; [|by injection Hc as <-].
    unfold series_getitem.
    destruct (col !! i); [discriminate | by injection Hc as <-].
  - apply Forall_cons in Hb as [Hb Hrest].
    unfold column_error in Hb.
    destruct (dict_get b ev) as [col|]; [|discriminate].
    unfold series_getitem. destruct (col !! i); [|discriminate].
    rewrite bind_Return. by apply IH.
Qed.

Section Tasks.
Context (w : world) (m : metric) (model : string) (args : list (list pyval)).
Context (i : nat) (input output : pyval).

(** A task whose grading columns cannot be formatted raises, and calls
    nothing. *)
Lemma row_task_format_raised e :
  _format_args_string w (grading_context_columns m) (eval_values_of m args) i
  = Raise e →
  row_task w m model args i input output
  = (Raise (MlflowException
              (malformed_message w m (grading_context_columns m)
                 (eval_values_of m args) e)
              INTERNAL_ERROR), []).
Proof. intros H. unfold row_task, score_model_on_one_payload. by rewrite H. Qed.

Lemma row_task_column_error before c after e :
  grading_context_columns m = before ++ c :: after →
  Forall (λ b, column_error (eval_values_of m args) b i = None) before →
  column_error (eval_values_of m args) c i = Some e →
  row_task w m model args i input output
  = (Raise (MlflowException
              (malformed_message w m (grading_context_columns m)
                 (eval_values_of m args) e)
              INTERNAL_ERROR), []).
Proof.
  intros Hcols Hb Hc. apply row_task_format_raised.
  unfold _format_args_string.
  by rewrite Hcols, (fill_args_dict_raise _ _ _ _ _ Hc before [] Hb).
Qed.

(** The task of a row whose payload was built and whose judge call
    raised. *)
Lemma row_task_judge_raised arg_string prompt e :
  _format_args_string w (grading_context_columns m) (eval_values_of m args) i
  = Return arg_string →
  eval_prompt_format w input output arg_string = Return prompt →
  score_model_on_payload w i model (payload_of m prompt)
    (judge_request_timeout m) = Raise e →
  row_task w m model args i input output
  = (if is_fatal e
     then Raise (MlflowException (exn_str e) INTERNAL_ERROR)
     else Return (PyNone, PyStr (failed_to_score e)),
     [(i, payload_of m prompt)]).
Proof.
  intros Hf Hp Hj. unfold row_task, score_model_on_one_payload.
  rewrite Hf, Hp. fold (payload_of m prompt). by rewrite Hj.
Qed.

(** The task of a row whose judge call returned and whose parser
    raised. *)
Lemma row_task_parser_raised arg_string prompt raw e :
  _format_args_string w (grading_context_columns m) (eval_values_of m args) i
  = Return arg_string →
  eval_prompt_format w input output arg_string = Return prompt →
  score_model_on_payload w i model (payload_of m prompt)
    (judge_request_timeout m) = Return raw →
  _extract_score_and_justification w raw = Raise e →
  row_task w m model args i input output
  = (Return (PyNone, PyStr (failed_to_score e)), [(i, payload_of m prompt)]).
Proof.
  intros Hf Hp Hj He. unfold row_task, score_model_on_one_payload.
  rewrite Hf, Hp. fold (payload_of m prompt). rewrite Hj, bind_Return, He.
  by rewrite (plain_not_fatal e (extract_plain _ _ _ He)).
Qed.

(** A task calls the judge at most once. *)
Lemma row_task_calls :
  length (row_task w m model args i input output).2 ≤ 1.
Proof.
  unfold row_task, score_model_on_one_payload.
  destruct (_format_args_string _ _ _ _); [|simpl; lia].
  destruct (eval_prompt_format _ _ _ _); simpl; lia.
Qed.

(** The answer of the judge to one row does not reach the task of another
    row. *)
Lemma row_task_with_answer k r :
  i ≠ k →
  row_task (with_answer w k r) m model args i input output
  = row_task w m model args i input output.
Proof.
  intros Hk. unfold row_task, score_model_on_one_payload. simpl.
  change (_format_args_string (with_answer w k r))
    with (_format_args_string w).
  destruct (_format_args_string w _ _ i) as [arg_string|e]; [|done].
  destruct (eval_prompt_format w input output arg_string) as [prompt|e];
    [|done].
  destruct (Nat.eqb_spec i k); [done|]. reflexivity.
Qed.
End Tasks.

(** ** Aggregation *)

Lemma aggregate_function_unknown w a scores :
  dict_get a options = None →
  aggregate_function w a scores
  = Raise (MlflowException ("Invalid aggregate option " +:+ a +:+ ".")
             INVALID_PARAMETER_VALUE).
Proof. intros H. unfold aggregate_function. by rewrite H. Qed.

Lemma aggregate_all_Return w scores aggs :
  ∀ acc r, aggregate_all w aggs scores acc = Return r →
           ∀ a, a ∈ aggs → ∃ v, aggregate_function w a scores = Return v.
Proof.
  induction aggs as [|o aggs IH]; intros acc r H a Ha; [by inversion Ha|].
  simpl in H. apply bind_Return_inv in H as (v & Hv & H).
  apply elem_of_cons in Ha as [->|Ha]; [by eauto|]. by eapply IH.
Qed.

Lemma aggregate_all_app w scores before a after :
  ∀ acc acc',
    aggregate_all w before scores acc = Return acc' →
    aggregate_all w (before ++ a :: after) scores acc
    = (v ← aggregate_function w a scores;
       aggregate_all w after scores (dict_set a v acc')).
Proof.
  induction before as [|b before IH]; intros acc acc' H; simpl in *.
  - by injection H as <-.
  - apply bind_Return_inv in H as (v & -> & H). rewrite bind_Return.
    by apply IH.
Qed.

(** ** Runs of [eval_fn] *)

Lemma zip_lookup_lt {A B} (l : list A) (k : list B) i :
  i < length (zip l k) → ∃ a b, l !! i = Some a ∧ k !! i = Some b.
Proof.
  rewrite length_zip_with. intros Hi.
  destruct (lookup_lt_is_Some_2 l i) as [a Ha]; [lia|].
  destruct (lookup_lt_is_Some_2 k i) as [b Hb]; [lia|]. eauto.
Qed.

Lemma zip_lookup_length {A B} (l : list A) (k : list B) i a b :
  l !! i = Some a → k !! i = Some b → i < length (zip l k).
Proof.
  intros Ha%lookup_lt_Some Hb%lookup_lt_Some. rewrite length_zip_with. lia.
Qed.

Lemma imap_calls {A} (f : nat → A → outcome (pyval * pyval) * list judge_call) :
  (∀ i a, length (f i a).2 ≤ 1) →
  ∀ l, length (concat (List.map snd (imap f l))) ≤ length l.
Proof.
  intros Hf l. revert f Hf. induction l as [|a l IH]; intros f Hf; simpl; [lia|].
  rewrite length_app. specialize (IH (f ∘ S) (λ i, Hf (S i))).
  specialize (Hf 0 a). lia.
Qed.

Section Runs.
Context (w : world) (m : metric) (predictions inputs : list pyval).
Context (args : list (list pyval)).

(** The future of row [i] is the task of input [i] and prediction [i]. *)
Lemma submitted_lookup model i input output :
  inputs !! i = Some input → predictions !! i = Some output →
  submitted w m inputs predictions (eval_values_of m args) model !! i
  = Some (row_task w m model args i input output).
Proof.
  intros Hi Ho. unfold submitted.
  by rewrite list_lookup_imap, lookup_zip_with, Hi, Ho.
Qed.

Lemma eval_fn_unfold sch model :
  eval_model m = PyStr model → (0 < max_workers m)%Z →
  eval_fn w m predictions inputs args sch =
  let futures := submitted w m inputs predictions (eval_values_of m args) model in
  ('(ss, js) ← collect (List.map fst futures) (completion_order sch)
                 (replicate (length inputs) PyNone)
                 (replicate (length inputs) PyNone);
   _ ← (if expired sch
        then Raise (TimeoutError
                      (length futures - length (completion_order sch))
                      (length futures))
        else Return tt);
   aggregate_results ← aggregate_after w m ss;
   Return (mkMetricValue ss js aggregate_results),
   concat (List.map snd futures)).
Proof.
  intros Hm Hw. unfold eval_fn. rewrite Hm.
  destruct (Z.leb_spec (max_workers m) 0); [lia|]. reflexivity.
Qed.

(** What a returning [eval_fn] has gone through. *)
Lemma eval_fn_Return sch mv :
  (eval_fn w m predictions inputs args sch).1 = Return mv →
  ∃ model,
    eval_model m = PyStr model ∧ (0 < max_workers m)%Z ∧ expired sch = false ∧
    collect (List.map fst (submitted w m inputs predictions
                             (eval_values_of m args) model))
            (completion_order sch)
            (replicate (length inputs) PyNone)
            (replicate (length inputs) PyNone)
    = Return (scores mv, justifications mv) ∧
    aggregate_after w m (scores mv) = Return (aggregate_results mv).
Proof.
  intros H.
  destruct (eval_model m) as [ | | | | model | | ] eqn:Hm;
    try (unfold eval_fn in H; rewrite Hm in H; discriminate).
  destruct (Z.leb_spec (max_workers m) 0) as [Hle|Hlt].
  { unfold eval_fn in H. rewrite Hm in H.
    destruct (Z.leb_spec (max_workers m) 0); [discriminate|lia]. }
  rewrite (eval_fn_unfold sch model Hm Hlt) in H. simpl in H.
  apply bind_Return_inv in H as ([ss js] & Hc & H).
  apply bind_Return_inv in H as ([] & He & H).
  apply bind_Return_inv in H as (ar & Ha & H).
  injection H as <-. simpl.
  exists model. split_and!; try done. by destruct (expired sch).
Qed.

(** Row by row: a MetricValue holds, at the index of every row that has a
    task, what that task returned, and [None] at the rows beyond. *)
Lemma eval_fn_rows sch mv :
  valid_schedule (length (zip inputs predictions)) sch →
  (eval_fn w m predictions inputs args sch).1 = Return mv →
  ∃ model,
    eval_model m = PyStr model ∧
    length (scores mv) = length inputs ∧
    length (justifications mv) = length inputs ∧
    (∀ i input output,
        inputs !! i = Some input → predictions !! i = Some output →
        ∃ s j, (row_task w m model args i input output).1 = Return (s, j) ∧
               scores mv !! i = Some s ∧ justifications mv !! i = Some j) ∧
    (∀ i, length predictions ≤ i → i < length inputs →
          scores mv !! i = Some PyNone ∧ justifications mv !! i = Some PyNone).
Proof.
  intros Hv H.
  apply eval_fn_Return in H as (model & Hm & Hw & Hexp & Hc & Ha).
  apply collect_Return in Hc as (Hls & Hlj & Hin & Hout).
  rewrite length_replicate in Hls, Hlj.
  exists model. split_and!; [done..| |].
  - intros i input output Hi Ho.
    destruct (Hin i) as (s & j & Hr & Hs & Hj).
    { eapply valid_schedule_all; [done..|]. by eapply zip_lookup_length. }
    exists s, j. split_and!; [|done..].
    rewrite list_lookup_fmap, (submitted_lookup _ _ _ _ Hi Ho) in Hr.
    by injection Hr.
  - intros i Hp Hi. destruct (Hout i) as [-> ->].
    + intros Hin'%(valid_schedule_lt _ _ _ Hv).
      rewrite length_zip_with in Hin'. lia.
    + by rewrite lookup_replicate_2.
Qed.

(** The result of [eval_fn] does not depend on the completion order. *)
Lemma eval_fn_order_irrelevant sch sch' mv :
  valid_schedule (length (zip inputs predictions)) sch →
  valid_schedule (length (zip inputs predictions)) sch' →
  expired sch' = false →
  (eval_fn w m predictions inputs args sch).1 = Return mv →
  eval_fn w m predictions inputs args sch'
  = eval_fn w m predictions inputs args sch.
Proof.
  intros Hv Hv' He' H.
  apply eval_fn_Return in H as (model & Hm & Hw & He & Hc & Ha).
  rewrite !(eval_fn_unfold _ model Hm Hw). cbv zeta.
  rewrite Hc, He, He'.
  pose proof (valid_schedules_same_futures _ _ _ Hv He Hv' He') as Hsame.
  destruct (collect_complete
              (List.map fst (submitted w m inputs predictions
                               (eval_values_of m args) model))
              (completion_order sch')
              (replicate (length inputs) PyNone)
              (replicate (length inputs) PyNone)) as (ss' & js' & Hc').
  { intros i Hi%Hsame.
    destruct (collect_Return _ _ _ _ _ _ Hc) as (Hls & Hlj & Hin & _).
    destruct (Hin i Hi) as (s & j & Hr & Hs%lookup_lt_Some & Hj%lookup_lt_Some).
    rewrite Hls in Hs. rewrite Hlj in Hj. eauto. }
  rewrite Hc'.
  by rewrite (collect_order_irrelevant _ _ _ _ _ _ _ Hsame Hc Hc').
Qed.

(** [eval_fn] does return a MetricValue when nothing stands in the way: the
    model is a string, the pool can be built, the wait does not expire,
    every task returns and the aggregation raises nothing. *)
Lemma eval_fn_returns sch model :
  eval_model m = PyStr model → (0 < max_workers m)%Z →
  valid_schedule (length (zip inputs predictions)) sch →
  expired sch = false →
  (∀ i input output,
      inputs !! i = Some input → predictions !! i = Some output →
      ∃ r, (row_task w m model args i input output).1 = Return r) →
  (∀ ss, ∃ ar, aggregate_after w m ss = Return ar) →
  ∃ mv, (eval_fn w m predictions inputs args sch).1 = Return mv.
Proof.
  intros Hm Hw Hv He Htasks Hagg.
  rewrite (eval_fn_unfold _ model Hm Hw). cbv zeta. simpl.
  destruct (collect_complete
              (List.map fst (submitted w m inputs predictions
                               (eval_values_of m args) model))
              (completion_order sch)
              (replicate (length inputs) PyNone)
              (replicate (length inputs) PyNone)) as (ss & js & ->).
  { intros i Hi%(valid_schedule_lt _ _ _ Hv).
    destruct (zip_lookup_lt _ _ _ Hi) as (input & output & Hin & Hout).
    rewrite !length_replicate.
    apply lookup_lt_Some in Hin as Hlt. split_and!; [done..|].
    destruct (Htasks i input output Hin Hout) as [r Hr].
    exists r.
    by rewrite list_lookup_fmap, (submitted_lookup _ _ _ _ Hin Hout), <-Hr. }
  rewrite He, !bind_Return. destruct (Hagg ss) as [ar ->]. by eauto.
Qed.

(** A task that raised leaves no MetricValue, whatever [as_completed]
    does. *)
Lemma eval_fn_task_raised i input output model e :
  eval_model m = PyStr model →
  inputs !! i = Some input → predictions !! i = Some output →
  (row_task w m model args i input output).1 = Raise e →
  ∀ sch, valid_schedule (length (zip inputs predictions)) sch →
         ∃ e', (eval_fn w m predictions inputs args sch).1 = Raise e'.
Proof.
  intros Hm Hi Ho Hr sch Hv.
  destruct (eval_fn w m predictions inputs args sch).1 as [mv|e'] eqn:H;
    [|by eauto].
  apply eval_fn_rows in H as (model' & Hm' & _ & _ & Hrows & _); [|done].
  rewrite Hm in Hm'. injection Hm' as <-.
  destruct (Hrows i input output Hi Ho) as (s & j & Hr' & _). congruence.
Qed.

(** When every task returns and the wait does not expire, the run gets to
    the aggregation with the results of the tasks in their rows. *)
Lemma eval_fn_collected sch model :
  eval_model m = PyStr model → (0 < max_workers m)%Z →
  valid_schedule (length (zip inputs predictions)) sch →
  expired sch = false →
  (∀ i input output,
      inputs !! i = Some input → predictions !! i = Some output →
      ∃ r, (row_task w m model args i input output).1 = Return r) →
  ∃ ss js,
    (eval_fn w m predictions inputs args sch).1
    = (aggregate_results ← aggregate_after w m ss;
       Return (mkMetricValue ss js aggregate_results)) ∧
    length ss = length inputs ∧ length js = length inputs ∧
    (∀ i input output,
        inputs !! i = Some input → predictions !! i = Some output →
        ∃ s j, (row_task w m model args i input output).1 = Return (s, j) ∧
               ss !! i = Some s ∧ js !! i = Some j).
Proof.
  intros Hm Hw Hv He Htasks.
  rewrite (eval_fn_unfold _ model Hm Hw). cbv zeta. simpl.
  destruct (collect_complete
              (List.map fst (submitted w m inputs predictions
                               (eval_values_of m args) model))
              (completion_order sch)
              (replicate (length inputs) PyNone)
              (replicate (length inputs) PyNone)) as (ss & js & Hc).
  { intros i Hi%(valid_schedule_lt _ _ _ Hv).
    destruct (zip_lookup_lt _ _ _ Hi) as (input & output & Hin & Hout).
    rewrite !length_replicate.
    apply lookup_lt_Some in Hin as Hlt. split_and!; [done..|].
    destruct (Htasks i input output Hin Hout) as [r Hr].
    exists r.
    by rewrite list_lookup_fmap, (submitted_lookup _ _ _ _ Hin Hout), <-Hr. }
  rewrite Hc, He, !bind_Return. exists ss, js.
  apply collect_Return in Hc as (Hls & Hlj & Hin & _).
  rewrite length_replicate in Hls, Hlj.
  split_and!; [done..|].
  intros i input output Hi Ho.
  destruct (Hin i) as (s & j & Hr & Hs & Hj).
  { eapply valid_schedule_all; [done..|]. by eapply zip_lookup_length. }
  exists s, j. split_and!; [|done..].
  rewrite list_lookup_fmap, (submitted_lookup _ _ _ _ Hi Ho) in Hr.
  by injection Hr.
Qed.

(** The exception of the first future that failed, in the order of
    completion, is the one the run raises. *)
Lemma eval_fn_first_Raise sch model pre i post input output e :
  eval_model m = PyStr model → (0 < max_workers m)%Z →
  completion_order sch = pre ++ i :: post →
  (∀ k, k ∈ pre →
        ∃ input' output' r,
          inputs !! k = Some input' ∧ predictions !! k = Some output' ∧
          (row_task w m model args k input' output').1 = Return r) →
  inputs !! i = Some input → predictions !! i = Some output →
  (row_task w m model args i input output).1 = Raise e →
  (eval_fn w m predictions inputs args sch).1 = Raise e.
Proof.
  intros Hm Hw Horder Hpre Hi Ho Hr.
  rewrite (eval_fn_unfold _ model Hm Hw). cbv zeta. simpl.
  rewrite Horder, (collect_first_Raise _ pre i post e); [done| |].
  - by rewrite list_lookup_fmap, (submitted_lookup _ _ _ _ Hi Ho), <-Hr.
  - intros k Hk. destruct (Hpre k Hk) as (input' & output' & r & Hi' & Ho' & Hr').
    rewrite !length_replicate. apply lookup_lt_Some in Hi' as Hlt.
    split_and!; [done..|]. exists r.
    by rewrite list_lookup_fmap, (submitted_lookup _ _ _ _ Hi' Ho'), <-Hr'.
Qed.

(** At most one judge call per row that has an input and a prediction. *)
Lemma eval_fn_calls sch :
  length (eval_fn w m predictions inputs args sch).2
  ≤ length inputs `min` length predictions.
Proof.
  unfold eval_fn. destruct (eval_model m); simpl; try lia.
  destruct (Z.leb (max_workers m) 0); simpl; [lia|].
  rewrite <-(length_zip_with pair). unfold submitted. apply imap_calls.
  intros i a. apply row_task_calls.
Qed.

(** The judge calls of a run are those of the submitted tasks; the
    aggregations have no part in them. *)
Lemma eval_fn_calls_aggregations sch aggs :
  (eval_fn w (with_aggregations m aggs) predictions inputs args sch).2
  = (eval_fn w m predictions inputs args sch).2.
Proof.
  unfold eval_fn. simpl.
  destruct (eval_model m); try reflexivity.
  by destruct (Z.leb (max_workers m) 0).
Qed.

(** A list of aggregations that asks for [min] or [max] lets [eval_fn]
    return a MetricValue only when some row has a score. *)
Lemma min_max_need_a_score sch mv aggs a :
  aggregations m = Some aggs → a ∈ aggs → a = "min" ∨ a = "max" →
  (eval_fn w m predictions inputs args sch).1 = Return mv →
  ∃ s, s ∈ scores mv ∧ s ≠ PyNone.
Proof.
  intros Haggs Ha Hmm H.
  apply eval_fn_Return in H as (model & _ & _ & _ & _ & Hagg).
  unfold aggregate_after in Hagg. rewrite Haggs in Hagg.
  destruct (aggregate_all_Return _ _ _ _ _ Hagg a Ha) as [v Hv].
  destruct (List.filter is_not_None (scores mv)) as [|s l] eqn:Hf.
  { by destruct Hmm as [-> | ->]. }
  assert (s ∈ List.filter is_not_None (scores mv)) as Hs
    by (rewrite Hf; left).
  apply list_elem_of_In, filter_In in Hs as [Hs Hnn].
  exists s. split; [by apply list_elem_of_In|]. by intros ->.
Qed.
End Runs.

(** * The claims *)

(** C1.  For every batch of N rows and every completion order of the judge
    tasks, the MetricValue that [eval_fn] returns has N scores and N
    justifications, and row [i] of both holds what the task of input row
    [i] returned: each result is written at its own row index.  All the
    completion orders give the same result.  And a MetricValue is returned
    whenever the model is a string, the pool can be built, the wait does
    not expire, every task returns and the aggregation raises nothing. *)
Theorem eval_fn_keeps_row_order w m predictions inputs args sch :
  length predictions = length inputs →
  valid_schedule (length inputs) sch →
  (∀ mv,
      (eval_fn w m predictions inputs args sch).1 = Return mv →
      length (scores mv) = length inputs ∧
      length (justifications mv) = length inputs ∧
      (∃ model, eval_model m = PyStr model ∧
         ∀ i, i < length inputs →
           ∃ input output s j,
             inputs !! i = Some input ∧ predictions !! i = Some output ∧
             (row_task w m model args i input output).1 = Return (s, j) ∧
             scores mv !! i = Some s ∧ justifications mv !! i = Some j) ∧
      (∀ sch', valid_schedule (length inputs) sch' → expired sch' = false →
               eval_fn w m predictions inputs args sch'
               = eval_fn w m predictions inputs args sch)) ∧
  (∀ model,
      eval_model m = PyStr model → (0 < max_workers m)%Z →
      expired sch = false →
      (∀ i input output,
          inputs !! i = Some input → predictions !! i = Some output →
          ∃ r, (row_task w m model args i input output).1 = Return r) →
      (∀ ss, ∃ ar, aggregate_after w m ss = Return ar) →
      ∃ mv, (eval_fn w m predictions inputs args sch).1 = Return mv).
Proof.
  intros Hlen Hv.
  assert (length (zip inputs predictions) = length inputs) as Hn
    by (rewrite length_zip_with; lia).
  rewrite <-Hn in Hv. split.
  - intros mv H.
    destruct (eval_fn_rows _ _ _ _ _ _ _ Hv H)
      as (model & Hm & Hls & Hlj & Hrows & _).
    split_and!; [done..| |].
    + exists model. split; [done|]. intros i Hi.
      rewrite <-Hn in Hi.
      destruct (zip_lookup_lt _ _ _ Hi) as (input & output & Hin & Hout).
      destruct (Hrows i input output Hin Hout) as (s & j & Hr).
      by exists input, output, s, j.
    + intros sch' Hv' He'. rewrite <-Hn in Hv'.
      by eapply eval_fn_order_irrelevant.
  - intros model Hm Hw He Htasks Hagg. by eapply eval_fn_returns.
Qed.

Lemma eval_fn_keeps_row_order_witness :
  let w := sample_world [good_answer; fair_answer; rate_limited] in
  let m := sample_metric [] (Some ["min"; "max"]) in
  let rows := [PyStr "a"; PyStr "b"; PyStr "c"] in
  let mv := mkMetricValue
              [PyInt 4; PyInt 3; PyNone]
              [PyStr "good"; PyStr "partially correct";
               PyStr "Failed to score model on payload. Error: rate limit reached"]
              [("min", PyInt 3); ("max", PyInt 4)] in
  (eval_fn w m rows rows [] (Schedule [2; 0; 1] false)).1 = Return mv ∧
  length (scores mv) = 3 ∧
  ∀ sch', valid_schedule 3 sch' → expired sch' = false →
          (eval_fn w m rows rows [] sch').1 = Return mv.
Proof.
  intros w m rows mv.
  assert (valid_schedule (length rows) (Schedule [2; 0; 1] false)) as Hv.
  { concrete_schedule. }
  assert ((eval_fn w m rows rows [] (Schedule [2; 0; 1] false)).1 = Return mv)
    as Hrun by (vm_compute; reflexivity).
  destruct (proj1 (eval_fn_keeps_row_order w m rows rows [] _ eq_refl Hv)
              mv Hrun) as (Hls & _ & _ & Hall).
  split_and!; [done..|].
  intros sch' Hv' He'. by rewrite (Hall sch' Hv' He').
Defined.

(** C2, as the code has it.  When the judge call of a row raises an
    MlflowException whose error code is BAD_REQUEST or UNAUTHENTICATED, the
    task does not raise that exception again: it raises a new
    MlflowException that carries its message and the error code
    INTERNAL_ERROR, so the judge's exception and its code do not reach the
    caller.  The run produces no MetricValue, whatever the completion
    order, and the new exception is the one [eval_fn] raises when the
    futures yielded before that of the row returned.  When the judge raises
    any other exception, the task returns a null score with the
    justification "Failed to score model on payload.  Error: <message>",
    and the run is not aborted by it: when the wait does not expire and the
    tasks of the other rows return, the run gets to the aggregation with
    that pair at the row and, at every other row, what that row's own task
    returned, and it returns the MetricValue of these when the aggregation
    raises nothing.  The tasks of the other rows do not depend on the
    judge's answer to this one. *)
Theorem judge_error_is_fatal_or_row_local
    w m predictions inputs args i input output model arg_string prompt e :
  eval_model m = PyStr model →
  inputs !! i = Some input → predictions !! i = Some output →
  _format_args_string w (grading_context_columns m) (eval_values_of m args) i
  = Return arg_string →
  eval_prompt_format w input output arg_string = Return prompt →
  score_model_on_payload w i model (payload_of m prompt)
    (judge_request_timeout m) = Raise e →
  (exn_error_code e = Some BAD_REQUEST ∨
   exn_error_code e = Some UNAUTHENTICATED →
     (row_task w m model args i input output).1
     = Raise (MlflowException (exn_str e) INTERNAL_ERROR) ∧
     MlflowException (exn_str e) INTERNAL_ERROR ≠ e ∧
     exn_error_code (MlflowException (exn_str e) INTERNAL_ERROR)
     = Some INTERNAL_ERROR ∧
     (∀ sch, valid_schedule (length (zip inputs predictions)) sch →
             ∃ e', (eval_fn w m predictions inputs args sch).1 = Raise e') ∧
     (∀ sch pre post,
         (0 < max_workers m)%Z →
         completion_order sch = pre ++ i :: post →
         (∀ k, k ∈ pre →
               ∃ input' output' r,
                 inputs !! k = Some input' ∧ predictions !! k = Some output' ∧
                 (row_task w m model args k input' output').1 = Return r) →
         (eval_fn w m predictions inputs args sch).1
         = Raise (MlflowException (exn_str e) INTERNAL_ERROR))) ∧
  (exn_error_code e ≠ Some BAD_REQUEST ∧
   exn_error_code e ≠ Some UNAUTHENTICATED →
     (row_task w m model args i input output).1
     = Return (PyNone,
               PyStr ("Failed to score model on payload. Error: "
                      +:+ exn_str e)) ∧
     (∀ sch,
         (0 < max_workers m)%Z →
         valid_schedule (length (zip inputs predictions)) sch →
         expired sch = false →
         (∀ k input' output',
             k ≠ i → inputs !! k = Some input' → predictions !! k = Some output' →
             ∃ r, (row_task w m model args k input' output').1 = Return r) →
         ∃ ss js,
           (eval_fn w m predictions inputs args sch).1
           = (aggregate_results ← aggregate_after w m ss;
              Return (mkMetricValue ss js aggregate_results)) ∧
           (∀ ar, aggregate_after w m ss = Return ar →
                  (eval_fn w m predictions inputs args sch).1
                  = Return (mkMetricValue ss js ar)) ∧
           length ss = length inputs ∧ length js = length inputs ∧
           ss !! i = Some PyNone ∧
           js !! i = Some (PyStr ("Failed to score model on payload. Error: "
                                  +:+ exn_str e)) ∧
           ∀ k input' output',
             k ≠ i → inputs !! k = Some input' → predictions !! k = Some output' →
             ∃ s j, (row_task w m model args k input' output').1 = Return (s, j) ∧
                    ss !! k = Some s ∧ js !! k = Some j) ∧
     (∀ sch mv,
         valid_schedule (length (zip inputs predictions)) sch →
         (eval_fn w m predictions inputs args sch).1 = Return mv →
         scores mv !! i = Some PyNone ∧
         justifications mv !! i
         = Some (PyStr ("Failed to score model on payload. Error: "
                        +:+ exn_str e)) ∧
         ∀ k input' output',
           k ≠ i → inputs !! k = Some input' → predictions !! k = Some output' →
           ∃ s j, (row_task w m model args k input' output').1 = Return (s, j) ∧
                  scores mv !! k = Some s ∧ justifications mv !! k = Some j) ∧
     (∀ k input' output' r,
         k ≠ i →
         row_task (with_answer w i r) m model args k input' output'
         = row_task w m model args k input' output')).
Proof.
  intros Hm Hi Ho Hf Hp Hj.
  pose proof (row_task_judge_raised _ _ _ _ _ _ _ _ _ _ Hf Hp Hj) as Ht.
  split.
  - intros Hcode. pose proof (proj2 (is_fatal_true e) Hcode) as Hfatal.
    rewrite Hfatal in Ht.
    assert ((row_task w m model args i input output).1
            = Raise (MlflowException (exn_str e) INTERNAL_ERROR)) as Hr
      by (by rewrite Ht).
    split_and!; [done| |done| |].
    + intros Heq. rewrite <-Heq in Hcode. simpl in Hcode.
      destruct Hcode as [Hc|Hc]; discriminate Hc.
    + by eapply eval_fn_task_raised.
    + intros sch pre post Hw Horder Hpre.
      by eapply eval_fn_first_Raise.
  - intros [Hb Hu].
    pose proof (is_fatal_false e Hb Hu) as Hnf.
    rewrite Hnf in Ht.
    assert ((row_task w m model args i input output).1
            = Return (PyNone, PyStr (failed_to_score e))) as Hr
      by (by rewrite Ht).
    split_and!; [done| | |].
    + intros sch Hw Hv He Hothers.
      destruct (eval_fn_collected w m predictions inputs args sch model
                  Hm Hw Hv He) as (ss & js & Heq & Hls & Hlj & Hrows).
      { intros k input' output' Hi' Ho'.
        destruct (decide (k = i)) as [->|Hk]; [|by eapply Hothers].
        rewrite Hi in Hi'. rewrite Ho in Ho'.
        injection Hi' as <-. injection Ho' as <-. by eauto. }
      exists ss, js. split_and!; [done| |done|done| | |].
      * intros ar Har. by rewrite Heq, Har.
      * destruct (Hrows i input output Hi Ho) as (s & j & Hr' & Hs & _).
        rewrite Hr in Hr'. by injection Hr' as <- <-.
      * destruct (Hrows i input output Hi Ho) as (s & j & Hr' & _ & Hj').
        rewrite Hr in Hr'. by injection Hr' as <- <-.
      * intros k input' output' _ Hi' Ho'. by apply Hrows.
    + intros sch mv Hv H.
      apply eval_fn_rows in H as (model' & Hm' & _ & _ & Hrows & _); [|done].
      rewrite Hm in Hm'. injection Hm' as <-.
      destruct (Hrows i input output Hi Ho) as (s & j & Hr' & Hs & Hj').
      rewrite Hr in Hr'. injection Hr' as <- <-.
      split_and!; [done..|].
      intros k input' output' _ Hi' Ho'. by apply Hrows.
    + intros k input' output' r Hk. by apply row_task_with_answer.
Qed.

Lemma judge_error_is_fatal_or_row_local_witness :
  let rows := [PyStr "a"; PyStr "b"; PyStr "c"] in
  let m := sample_metric [] (Some ["min"; "max"]) in
  (let w := sample_world [good_answer; unauthenticated; rate_limited] in
   (∀ sch, valid_schedule 3 sch →
           ∃ e', (eval_fn w m rows rows [] sch).1 = Raise e') ∧
   (eval_fn w m rows rows [] (Schedule [2; 0; 1] false)).1
   = Raise (MlflowException "invalid API key" INTERNAL_ERROR)) ∧
  (let w := sample_world [good_answer; rate_limited; fair_answer] in
   (eval_fn w m rows rows [] (Schedule [2; 0; 1] false)).1
   = Return (mkMetricValue
               [PyInt 4; PyNone; PyInt 3]
               [PyStr "good";
                PyStr "Failed to score model on payload. Error: rate limit reached";
                PyStr "partially correct"]
               [("min", PyInt 3); ("max", PyInt 4)])).
Proof.
  intros rows m. split.
  - intros w.
    destruct (proj1 (judge_error_is_fatal_or_row_local
                w m rows rows [] 1 (PyStr "b") (PyStr "b") "openai:/gpt-4"
                _ _ (MlflowException "invalid API key" UNAUTHENTICATED)
                eq_refl eq_refl eq_refl eq_refl eq_refl eq_refl)
                (or_intror eq_refl)) as (_ & _ & _ & Hnone & Hfirst).
    split; [exact Hnone|].
    apply (Hfirst (Schedule [2; 0; 1] false) [2; 0] []); [done..|].
    intros k Hk. apply elem_of_cons in Hk as [->|Hk].
    + by exists (PyStr "c"), (PyStr "c"),
        (PyNone,
         PyStr "Failed to score model on payload. Error: rate limit reached").
    + apply list_elem_of_singleton in Hk as ->.
      by exists (PyStr "a"), (PyStr "a"), (PyInt 4, PyStr "good").
  - intros w.
    destruct (proj2 (judge_error_is_fatal_or_row_local
                w m rows rows [] 1 (PyStr "b") (PyStr "b") "openai:/gpt-4"
                _ _ (MlflowException "rate limit reached" "REQUEST_LIMIT_EXCEEDED")
                eq_refl eq_refl eq_refl eq_refl eq_refl eq_refl))
      as (_ & Hrun & _); [by split|].
    destruct (Hrun (Schedule [2; 0; 1] false)) as
      (ss & js & _ & Hret & Hls & Hlj & Hsi & Hji & Hrows); [done| |done| |].
    + concrete_schedule.
    + intros k input' output' Hk Hi' Ho'.
      destruct k as [|[|[|k]]]; [| done | |discriminate Hi'].
      * injection Hi' as <-. injection Ho' as <-.
        exists (PyInt 4, PyStr "good"). by vm_compute.
      * injection Hi' as <-. injection Ho' as <-.
        exists (PyInt 3, PyStr "partially correct"). by vm_compute.
    + destruct (Hrows 0 (PyStr "a") (PyStr "a")) as (s0 & j0 & Hr0 & Hs0 & Hj0);
        [done..|].
      destruct (Hrows 2 (PyStr "c") (PyStr "c")) as (s2 & j2 & Hr2 & Hs2 & Hj2);
        [done..|].
      vm_compute in Hr0, Hr2.
      injection Hr0 as <- <-. injection Hr2 as <- <-.
      assert (ss = [PyInt 4; PyNone; PyInt 3]) as ->.
      { destruct ss as [|a [|b [|c [|]]]]; try discriminate Hls.
        simpl in Hs0, Hsi, Hs2. congruence. }
      assert (js = [PyStr "good";
                    PyStr "Failed to score model on payload. Error: rate limit reached";
                    PyStr "partially correct"]) as ->.
      { destruct js as [|a [|b [|c [|]]]]; try discriminate Hlj.
        simpl in Hj0, Hji, Hj2. congruence. }
      apply Hret. by vm_compute.
Defined.

(** C2 as stated fails: the judge answers row 1 with an MlflowException
    tagged UNAUTHENTICATED; the exception [eval_fn] raises is not that one
    but another, tagged INTERNAL_ERROR, with the same message. *)
Lemma fatal_judge_error_is_not_reraised :
  let w := sample_world [good_answer; unauthenticated; good_answer] in
  let m := sample_metric [] None in
  let rows := [PyStr "a"; PyStr "b"; PyStr "c"] in
  let e := MlflowException "invalid API key" UNAUTHENTICATED in
  ∃ payload e',
    (row_task w m "openai:/gpt-4" [] 1 (PyStr "b") (PyStr "b")).2
    = [(1, payload)] ∧
    score_model_on_payload w 1 "openai:/gpt-4" payload (judge_request_timeout m)
    = Raise e ∧
    (eval_fn w m rows rows [] (in_order 3)).1 = Raise e' ∧
    e' ≠ e ∧
    exn_error_code e = Some UNAUTHENTICATED ∧
    exn_error_code e' = Some INTERNAL_ERROR ∧
    exn_str e' = exn_str e.
Proof.
  intros w m rows e.
  exists (payload_of m ("Input: b" +:+ NL +:+ "Output: b" +:+ NL
                        +:+ "Additional information used by the model:" +:+ NL)),
    (MlflowException "invalid API key" INTERNAL_ERROR).
  split_and!; by vm_compute.
Qed.

(** C3, as the code has it.  For every row that has a task, when a required
    grading column is absent from the columns given to [eval_fn] (the
    columns required before it having a value for the row), the task raises
    an MlflowException without calling the judge, and the run produces no
    MetricValue, whatever the completion order.  The message is
    [missing_column_message]: it names the metric and the required columns
    and quotes the error "<column> does not exist in the eval function
    [...]"; it is the same for every row and does not mention the row. *)
Theorem missing_column_is_fatal
    w m predictions inputs args i input output model before c after :
  eval_model m = PyStr model →
  inputs !! i = Some input → predictions !! i = Some output →
  grading_context_columns m = before ++ c :: after →
  Forall (λ b, column_error (eval_values_of m args) b i = None) before →
  dict_get c (eval_values_of m args) = None →
  row_task w m model args i input output
  = (Raise (MlflowException (missing_column_message w m args c) INTERNAL_ERROR),
     []) ∧
  ∀ sch, valid_schedule (length (zip inputs predictions)) sch →
         ∃ e', (eval_fn w m predictions inputs args sch).1 = Raise e'.
Proof.
  intros Hm Hi Ho Hcols Hb Hc.
  assert (row_task w m model args i input output
          = (Raise (MlflowException (missing_column_message w m args c)
                      INTERNAL_ERROR), [])) as Hr.
  { eapply row_task_column_error; [done..|].
    unfold column_error. by rewrite Hc. }
  split; [done|]. eapply eval_fn_task_raised; [done..|]. by rewrite Hr.
Qed.

Lemma missing_column_is_fatal_witness :
  let w := sample_world [good_answer; good_answer; good_answer] in
  let m := sample_metric ["targets"] None in
  let rows := [PyStr "a"; PyStr "b"; PyStr "c"] in
  (row_task w m "openai:/gpt-4" [] 2 (PyStr "c") (PyStr "c")).2 = [] ∧
  ∀ sch, valid_schedule 3 sch → ∃ e', (eval_fn w m rows rows [] sch).1 = Raise e'.
Proof.
  intros w m rows.
  destruct (missing_column_is_fatal w m rows rows [] 2 (PyStr "c")
              (PyStr "c") "openai:/gpt-4" [] "targets" []
              eq_refl eq_refl eq_refl eq_refl (List.Forall_nil _) eq_refl)
    as [Htask Hfatal].
  split; [by rewrite Htask | exact Hfatal].
Defined.

(** C3 as stated fails: three rows, the column [targets] required and not
    given.  The task of row 2 completes first, its exception is the one
    [eval_fn] raises, and its message names the column but contains no
    [2]. *)
Lemma context_error_omits_row_index :
  let w := sample_world [good_answer; good_answer; good_answer] in
  let m := sample_metric ["targets"] None in
  let rows := [PyStr "a"; PyStr "b"; PyStr "c"] in
  ∃ e, (row_task w m "openai:/gpt-4" [] 2 (PyStr "c") (PyStr "c")).1 = Raise e ∧
       (eval_fn w m rows rows [] (Schedule [2; 0; 1] false)).1 = Raise e ∧
       contains "targets" (exn_str e) = true ∧
       contains (str_of_nat 2) (exn_str e) = false.
Proof.
  intros w m rows. eexists.
  split; [reflexivity|]. split_and!; by vm_compute.
Qed.

(** C4, as the code has it.  A name outside min, max, mean, median,
    variance and p90 is refused by [aggregate_function] with the
    MlflowException "Invalid aggregate option <name>." tagged
    INVALID_PARAMETER_VALUE, and a list of aggregations that contains one
    never lets [eval_fn] return a MetricValue.  The name is refused when
    the aggregation reaches it, not before the run: the judge calls made
    are the same as with any other list of aggregations, and the error
    raised by [eval_fn] is this one when the collection loop has completed
    and the statistics listed before the name were computed without
    error. *)
Theorem unknown_aggregation_is_refused_late
    w m predictions inputs args aggs a :
  aggregations m = Some aggs →
  a ∈ aggs →
  dict_get a options = None →
  (∀ scores,
      aggregate_function w a scores
      = Raise (MlflowException ("Invalid aggregate option " +:+ a +:+ ".")
                 INVALID_PARAMETER_VALUE)) ∧
  (∀ sch mv, (eval_fn w m predictions inputs args sch).1 ≠ Return mv) ∧
  (∀ sch aggs',
      (eval_fn w (with_aggregations m aggs') predictions inputs args sch).2
      = (eval_fn w m predictions inputs args sch).2) ∧
  (∀ sch model ss js before after acc,
      eval_model m = PyStr model → (0 < max_workers m)%Z →
      collect (List.map fst (submitted w m inputs predictions
                               (eval_values_of m args) model))
              (completion_order sch)
              (replicate (length inputs) PyNone)
              (replicate (length inputs) PyNone) = Return (ss, js) →
      expired sch = false →
      aggs = before ++ a :: after →
      aggregate_all w before (List.filter is_not_None ss) [] = Return acc →
      (eval_fn w m predictions inputs args sch).1
      = Raise (MlflowException ("Invalid aggregate option " +:+ a +:+ ".")
                 INVALID_PARAMETER_VALUE)).
Proof.
  intros Haggs Ha Hunknown. split_and!.
  - intros scores. by apply aggregate_function_unknown.
  - intros sch mv H.
    apply eval_fn_Return in H as (model & _ & _ & _ & _ & Hagg).
    unfold aggregate_after in Hagg. rewrite Haggs in Hagg.
    destruct (aggregate_all_Return _ _ _ _ _ Hagg a Ha) as [v Hv].
    by rewrite aggregate_function_unknown in Hv.
  - intros sch aggs'. apply eval_fn_calls_aggregations.
  - intros sch model ss js before after acc Hm Hw Hc He -> Hbefore.
    rewrite (eval_fn_unfold _ _ _ _ _ _ model Hm Hw). cbv zeta. simpl.
    rewrite Hc, He, !bind_Return. unfold aggregate_after. rewrite Haggs.
    rewrite (aggregate_all_app _ _ _ _ _ _ _ Hbefore).
    by rewrite aggregate_function_unknown.
Qed.

Lemma unknown_aggregation_is_refused_late_witness :
  let w := sample_world [good_answer] in
  let m := sample_metric [] (Some ["min"; "stddev"]) in
  (∀ sch mv, (eval_fn w m [PyStr "a"] [PyStr "x"] [] sch).1 ≠ Return mv) ∧
  (eval_fn w m [PyStr "a"] [PyStr "x"] [] (in_order 1)).1
  = Raise (MlflowException "Invalid aggregate option stddev."
             INVALID_PARAMETER_VALUE).
Proof.
  intros w m.
  destruct (unknown_aggregation_is_refused_late w m [PyStr "a"] [PyStr "x"] []
              ["min"; "stddev"] "stddev" eq_refl
              (list_elem_of_further _ _ _ (list_elem_of_here _ _)) eq_refl)
    as (_ & Hnever & _ & Hlate).
  split; [exact Hnever|].
  exact (Hlate (in_order 1) "openai:/gpt-4" [PyInt 4] [PyStr "good"]
           ["min"] [] [("min", PyInt 4)]
           eq_refl eq_refl eq_refl eq_refl eq_refl eq_refl).
Defined.

(** C4 as stated fails: one row, the aggregation [stddev].  The exception
    for the unknown name is raised, and the judge call of the row has been
    made by then.  And when the judge refuses the credentials, the run
    raises that error, not the one for the unknown name. *)
Lemma unknown_aggregation_after_judge_calls :
  let m := sample_metric [] (Some ["stddev"]) in
  (let w := sample_world [good_answer] in
   (eval_fn w m [PyStr "a"] [PyStr "x"] [] (in_order 1)).1
   = Raise (MlflowException "Invalid aggregate option stddev."
              INVALID_PARAMETER_VALUE) ∧
   List.map fst (eval_fn w m [PyStr "a"] [PyStr "x"] [] (in_order 1)).2 = [0]) ∧
  (let w := sample_world [unauthenticated] in
   (eval_fn w m [PyStr "a"] [PyStr "x"] [] (in_order 1)).1
   = Raise (MlflowException "invalid API key" INTERNAL_ERROR)).
Proof. intros m. split_and!; by vm_compute. Qed.

(** C5 (the code departs from it).  On the empty list of scores the
    statistics [min] and [max] raise numpy's ValueError instead of giving a
    sentinel; [mean], [median] and [variance] give NaN, and [p90], whose
    entry tests for the empty list, gives None.  So a batch whose only row
    failed recoverably makes [eval_fn] raise when the aggregations ask for
    [min], and return a MetricValue when they ask for [p90]. *)
Theorem empty_scores_crash_min_and_max :
  ∀ w,
    (∃ e, exn_type e = "ValueError" ∧ aggregate_function w "min" [] = Raise e) ∧
    (∃ e, exn_type e = "ValueError" ∧ aggregate_function w "max" [] = Raise e) ∧
    aggregate_function w "mean" [] = Return (PyFloat nan) ∧
    aggregate_function w "median" [] = Return (PyFloat nan) ∧
    aggregate_function w "variance" [] = Return (PyFloat nan) ∧
    aggregate_function w "p90" [] = Return PyNone ∧
    (∃ e, exn_type e = "ValueError" ∧
          (eval_fn (sample_world [rate_limited]) (sample_metric [] (Some ["min"]))
                   [PyStr "a"] [PyStr "x"] [] (in_order 1)).1 = Raise e) ∧
    (eval_fn (sample_world [rate_limited]) (sample_metric [] (Some ["p90"]))
             [PyStr "a"] [PyStr "x"] [] (in_order 1)).1
    = Return (mkMetricValue
                [PyNone]
                [PyStr "Failed to score model on payload. Error: rate limit reached"]
                [("p90", PyNone)]).
Proof.
  intros w.
  split_and!; try reflexivity; eexists; (split; [|reflexivity]); reflexivity.
Qed.

(** C6, as the code has it.  [eval_fn] does not compare the lengths of its
    sequences.  It submits tasks, and so calls the judge, for at most the
    first min(len(inputs), len(predictions)) rows.  A MetricValue it returns
    has len(inputs) scores and justifications: the result of its task at
    every row that has both an input and a prediction, and none at the rows
    at or beyond len(predictions).  A grading column that has no value for
    a row that has a task (the columns required before it having one) makes
    the task raise and the run produce no MetricValue, whatever the
    completion order. *)
Theorem row_counts_are_not_checked w m predictions inputs args sch :
  valid_schedule (length (zip inputs predictions)) sch →
  length (eval_fn w m predictions inputs args sch).2
  ≤ length inputs `min` length predictions ∧
  (∀ mv,
      (eval_fn w m predictions inputs args sch).1 = Return mv →
      ∃ model,
        eval_model m = PyStr model ∧
        length (scores mv) = length inputs ∧
        length (justifications mv) = length inputs ∧
        (∀ i input output,
            inputs !! i = Some input → predictions !! i = Some output →
            ∃ s j, (row_task w m model args i input output).1 = Return (s, j) ∧
                   scores mv !! i = Some s ∧ justifications mv !! i = Some j) ∧
        (∀ i, length predictions ≤ i → i < length inputs →
              scores mv !! i = Some PyNone ∧
              justifications mv !! i = Some PyNone)) ∧
  (∀ model i input output before c after col,
      eval_model m = PyStr model →
      inputs !! i = Some input → predictions !! i = Some output →
      grading_context_columns m = before ++ c :: after →
      Forall (λ b, column_error (eval_values_of m args) b i = None) before →
      dict_get c (eval_values_of m args) = Some col →
      length col ≤ i →
      row_task w m model args i input output
      = (Raise (MlflowException
                  (malformed_message w m (grading_context_columns m)
                     (eval_values_of m args) (KeyError (str_of_nat i)))
                  INTERNAL_ERROR), []) ∧
      ∃ e', (eval_fn w m predictions inputs args sch).1 = Raise e').
Proof.
  intros Hv. split_and!.
  - apply eval_fn_calls.
  - intros mv H. by eapply eval_fn_rows.
  - intros model i input output before c after col Hm Hi Ho Hcols Hb Hc Hlen.
    assert (row_task w m model args i input output
            = (Raise (MlflowException
                        (malformed_message w m (grading_context_columns m)
                           (eval_values_of m args) (KeyError (str_of_nat i)))
                        INTERNAL_ERROR), [])) as Hr.
    { eapply row_task_column_error; [done..|].
      unfold column_error. rewrite Hc.
      by rewrite (lookup_ge_None_2 col i Hlen). }
    split; [done|]. eapply eval_fn_task_raised; [done..| |done].
    by rewrite Hr.
Qed.

Lemma row_counts_are_not_checked_witness :
  let w := sample_world [good_answer; good_answer] in
  let m := sample_metric [] None in
  let run := eval_fn w m [PyStr "a"] [PyStr "x"; PyStr "y"] [] (in_order 1) in
  length run.2 ≤ 1 ∧
  ∃ mv, run.1 = Return mv ∧ length (scores mv) = 2 ∧
        scores mv !! 1 = Some PyNone ∧ justifications mv !! 1 = Some PyNone.
Proof.
  intros w m run.
  destruct (row_counts_are_not_checked w m [PyStr "a"]
              [PyStr "x"; PyStr "y"] [] (in_order 1) (in_order_valid 1))
    as (Hcalls & Hrows & _).
  split; [exact Hcalls|].
  destruct (Hrows (mkMetricValue [PyInt 4; PyNone] [PyStr "good"; PyNone] [])
              eq_refl) as (model & _ & Hls & _ & _ & Hnone).
  eexists. split; [reflexivity|]. split; [exact Hls|].
  apply (Hnone 1); simpl; lia.
Defined.

(** C6 as stated fails: two inputs and one prediction, and one input and
    two predictions, are scored without any error. *)
Lemma row_count_mismatch_is_scored :
  let w := sample_world [good_answer; good_answer] in
  let m := sample_metric [] None in
  (eval_fn w m [PyStr "a"] [PyStr "x"; PyStr "y"] [] (in_order 1)).1
  = Return (mkMetricValue [PyInt 4; PyNone] [PyStr "good"; PyNone] []) ∧
  (eval_fn w m [PyStr "a"; PyStr "b"] [PyStr "x"] [] (in_order 1)).1
  = Return (mkMetricValue [PyInt 4] [PyStr "good"] []).
Proof. intros w m. split; by vm_compute. Qed.

(** C7 (the code departs from it).  The parser is not total: for every
    response that is not a dict with a non-empty list of candidates, the
    variable [text] is read before it was assigned and the parser raises
    UnboundLocalError; the response is not treated as text and
    [(None, None)] is not returned. *)
Theorem parser_raises_without_candidates w output :
  first_candidate output = None →
  _extract_score_and_justification w output = Raise UnboundLocalError_text.
Proof.
  intros H. unfold _extract_score_and_justification. by rewrite H.
Qed.

Lemma parser_raises_without_candidates_witness :
  _extract_score_and_justification (sample_world [])
    (PyDict [("candidates", PyList [])])
  = Raise UnboundLocalError_text ∧
  _extract_score_and_justification (sample_world [])
    (PyStr "score: 3, justification: ok")
  = Raise UnboundLocalError_text.
Proof.
  split.
  - exact (parser_raises_without_candidates (sample_world [])
             (PyDict [("candidates", PyList [])]) eq_refl).
  - exact (parser_raises_without_candidates (sample_world [])
             (PyStr "score: 3, justification: ok") eq_refl).
Defined.

(** C8.  Structured parsing comes first and the regular expression second:
    a candidate text that is the JSON object with score 4 and justification
    "good" is decoded by [json.loads] and parses to (4, "good"); the text
    [score: 3, justification: partially correct] is refused by [json.loads],
    matched by the regular expression, and parses to
    (3, "partially correct"). *)
Theorem structured_first_regex_second :
  ∀ w,
    json_loads (PyStr (dq "{'score': 4, 'justification': 'good'}"))
    = Return (PyDict [("score", PyInt 4); ("justification", PyStr "good")]) ∧
    _extract_score_and_justification w
      (response (dq "{'score': 4, 'justification': 'good'}"))
    = Return (PyInt 4, PyStr "good") ∧
    json_loads (PyStr "score: 3, justification: partially correct")
    = Raise JSONDecodeError ∧
    _extract_score_and_justification w
      (response "score: 3, justification: partially correct")
    = Return (PyInt 3, PyStr "partially correct").
Proof. intros w. split_and!; by vm_compute. Qed.

(** C9 (the code departs from it).  A score that is not numeric does not
    lead to the diagnostic: [int()] is applied to the field inside the [try]
    statement, before the type test, and the only exception caught there is
    JSONDecodeError.  So for every candidate text that [json.loads] accepts,
    the exception of [data.get("score")] (the decoded value is not an
    object) or of [int()] on the field (null, a word, a list) leaves the
    parser as it is. *)
Theorem parser_raises_on_non_numeric_score w output first s data e :
  first_candidate output = Some first →
  py_getitem_str first "text" = Return (PyStr s) →
  s ≠ EmptyString →
  json_decode s = Some data →
  (x ← py_get data "score"; py_int x) = Raise e →
  _extract_score_and_justification w output = Raise e.
Proof.
  intros H1 H2 Hs Hj He. unfold _extract_score_and_justification.
  rewrite H1, H2, !bind_Return. simpl truthy.
  destruct (String.eqb_spec s EmptyString) as [|_]; [done|]. simpl negb.
  unfold recover_score_and_justification. simpl json_loads. rewrite Hj.
  rewrite bind_Return, He, bind_Raise.
  assert (plain e) as Hplain.
  { apply bind_Raise_inv in He as [H|(x & _ & H)]; eauto with plain. }
  assert (String.eqb (exn_type e) "JSONDecodeError" = false) as ->; [|done].
  apply bind_Raise_inv in He as [H|(x & _ & H)].
  - destruct data; simpl in H; try discriminate; by injection H as <-.
  - destruct x as [ | | |f|t| | ]; simpl in H; try discriminate;
      try (by injection H as <-).
    + destruct f; simpl in H; try discriminate; by injection H as <-.
    + destruct (int_of_str t); [discriminate | by injection H as <-].
Qed.

Lemma parser_raises_on_non_numeric_score_witness :
  ∃ e, exn_type e = "TypeError" ∧
       _extract_score_and_justification (sample_world [])
         (response (dq "{'score': null, 'justification': 'good'}"))
       = Raise e.
Proof.
  eexists. split; [|
    exact (parser_raises_on_non_numeric_score (sample_world [])
             (response (dq "{'score': null, 'justification': 'good'}"))
             (PyDict [("text",
                       PyStr (dq "{'score': null, 'justification': 'good'}"))])
             (dq "{'score': null, 'justification': 'good'}")
             (PyDict [("score", PyNone); ("justification", PyStr "good")])
             _ eq_refl eq_refl ltac:(by vm_compute) eq_refl eq_refl)].
  reflexivity.
Defined.

(** The same on three responses: a null score, a score that is a word, and
    a JSON text that is not an object. *)
Lemma parser_raises_examples w :
  (∃ e, exn_type e = "TypeError" ∧
        _extract_score_and_justification w
          (response (dq "{'score': null, 'justification': 'good'}"))
        = Raise e) ∧
  (∃ e, exn_type e = "ValueError" ∧
        _extract_score_and_justification w
          (response (dq "{'score': 'high', 'justification': 'good'}"))
        = Raise e) ∧
  (∃ e, exn_type e = "AttributeError" ∧
        _extract_score_and_justification w (response "[1, 2]") = Raise e).
Proof. split_and!; eexists; (split; [|reflexivity]); reflexivity. Qed.

(** C10.  In a task whose payload was built, every exception of the judge
    call other than an MlflowException tagged BAD_REQUEST or
    UNAUTHENTICATED, and every exception of the parser (which are never
    MlflowExceptions), is turned into the row's result
    (None, "Failed to score model on payload. Error: <message>").  So the
    TypeError of [int()] on the missing score of a valid JSON object is
    reported with this message, not with the parser's own diagnostic. *)
Theorem task_exceptions_become_row_results
    w m model args i input output arg_string prompt :
  _format_args_string w (grading_context_columns m) (eval_values_of m args) i
  = Return arg_string →
  eval_prompt_format w input output arg_string = Return prompt →
  (∀ e,
      score_model_on_payload w i model (payload_of m prompt)
        (judge_request_timeout m) = Raise e →
      exn_error_code e ≠ Some BAD_REQUEST →
      exn_error_code e ≠ Some UNAUTHENTICATED →
      (row_task w m model args i input output).1
      = Return (PyNone,
                PyStr ("Failed to score model on payload. Error: "
                       +:+ exn_str e))) ∧
  (∀ raw e,
      score_model_on_payload w i model (payload_of m prompt)
        (judge_request_timeout m) = Return raw →
      _extract_score_and_justification w raw = Raise e →
      exn_error_code e = None ∧
      (row_task w m model args i input output).1
      = Return (PyNone,
                PyStr ("Failed to score model on payload. Error: "
                       +:+ exn_str e))) ∧
  (score_model_on_payload w i model (payload_of m prompt)
     (judge_request_timeout m)
   = Return (response (dq "{'justification': 'good'}")) →
   ∃ e, exn_type e = "TypeError" ∧
        _extract_score_and_justification w
          (response (dq "{'justification': 'good'}")) = Raise e ∧
        (row_task w m model args i input output).1
        = Return (PyNone,
                  PyStr ("Failed to score model on payload. Error: "
                         +:+ exn_str e)) ∧
        (row_task w m model args i input output).1
        ≠ Return (PyNone,
                  PyStr (failed_to_extract w
                           (response (dq "{'justification': 'good'}"))))).
Proof.
  intros Hf Hp.
  pose proof (λ raw e Hj He,
                f_equal fst (row_task_parser_raised w m model args i input
                               output arg_string prompt raw e Hf Hp Hj He))
    as Hparser.
  simpl in Hparser. split_and!.
  - intros e Hj Hb Hu.
    rewrite (row_task_judge_raised _ _ _ _ _ _ _ _ _ _ Hf Hp Hj).
    by rewrite (is_fatal_false e Hb Hu).
  - intros raw e Hj He. split; [by eapply extract_plain | by eapply Hparser].
  - intros Hj.
    destruct (_extract_score_and_justification w
                (response (dq "{'justification': 'good'}"))) as [r|e] eqn:He;
      [by vm_compute in He|].
    exists e. rewrite (Hparser _ _ Hj He).
    vm_compute in He. injection He as <-.
    split_and!; [done..|]. unfold failed_to_score, failed_to_extract.
    simpl. intros H. discriminate H.
Qed.

Lemma task_exceptions_become_row_results_witness :
  let w := sample_world
             [Return (response (dq "{'justification': 'good'}")); rate_limited] in
  let m := sample_metric [] None in
  (row_task w m "openai:/gpt-4" [] 1 (PyStr "b") (PyStr "b")).1
  = Return (PyNone,
            PyStr "Failed to score model on payload. Error: rate limit reached") ∧
  ∃ e, exn_type e = "TypeError" ∧
       (row_task w m "openai:/gpt-4" [] 0 (PyStr "a") (PyStr "a")).1
       = Return (PyNone,
                 PyStr ("Failed to score model on payload. Error: "
                        +:+ exn_str e)).
Proof.
  intros w m. split.
  - refine (proj1 (task_exceptions_become_row_results
             w m "openai:/gpt-4" [] 1 (PyStr "b") (PyStr "b") _ _
             eq_refl eq_refl)
             (MlflowException "rate limit reached" "REQUEST_LIMIT_EXCEEDED")
             eq_refl _ _); by vm_compute.
  - destruct (proj2 (proj2 (task_exceptions_become_row_results
               w m "openai:/gpt-4" [] 0 (PyStr "a") (PyStr "a") _ _
               eq_refl eq_refl)) eq_refl) as (e & Ht & _ & Hr & _).
    by exists e.
Defined.

(** * Further properties of the code *)

(** ** Shapes of results *)

Lemma py_int_Return v x : py_int v = Return x → is_int x.
Proof.
  intros Hx. destruct v as [ | b | z | f | t | l | d ]; simpl in Hx;
    try discriminate; try (injection Hx as <-; by eexists).
  - apply bind_Return_inv in Hx as (z & _ & Hx). injection Hx as <-.
    by eexists.
  - destruct (int_of_str t); [injection Hx as <-; by eexists | discriminate].
Qed.

Lemma recover_Return w output text s j :
  recover_score_and_justification w output text = Return (s, j) →
  is_int s ∨ (s = PyNone ∧ j = PyStr (failed_to_extract w output)).
Proof.
  unfold recover_score_and_justification. intros Hrec.
  destruct (_ ← json_loads text; _) as [r|e] eqn:Htry.
  - injection Hrec as ->.
    apply bind_Return_inv in Htry as (data & _ & Htry).
    apply bind_Return_inv in Htry as (sc & Hsc & Htry).
    apply bind_Return_inv in Htry as (ju & _ & Htry). injection Htry as <- <-.
    apply bind_Return_inv in Hsc as (x & _ & Hsc). left. by eapply py_int_Return.
  - destruct (String.eqb _ _); [|discriminate].
    destruct text as [ | | | | t | | ]; try discriminate.
    destruct (re_search score_pattern t) as [mo|].
    + apply bind_Return_inv in Hrec as (x & Hx & Hrec). injection Hrec as <- <-.
      left. by eapply py_int_Return.
    + injection Hrec as <- <-. by right.
Qed.

Lemma extract_shape w output s j :
  _extract_score_and_justification w output = Return (s, j) → row_shape s j.
Proof.
  unfold _extract_score_and_justification, row_shape. intros H.
  apply bind_Return_inv in H as (text_var & _ & H).
  apply bind_Return_inv in H as (text & _ & H).
  destruct (truthy text); [|injection H as <- <-; by left].
  apply bind_Return_inv in H as ([s0 j0] & Hrec & H).
  destruct (negb (is_int_or_float s0) || negb (is_str j0)) eqn:Htest;
    injection H as <- <-; [right; left; by eauto|].
  apply orb_false_elim in Htest as [Hs Hj].
  apply negb_false_iff in Hs, Hj.
  right; right.
  apply recover_Return in Hrec as [[z ->]|[-> _]]; [|discriminate].
  destruct j0; try discriminate. by eauto.
Qed.

(** X1.  A result of the parser always comes from the ["text"] entry of
    the first candidate of the response.  It is (None, None) exactly when
    that text is falsy; for any other text it is a null score with the
    diagnostic that quotes the response, or an [int] score with a [str]
    justification.  The parser never returns a float, a bool or a string
    as score, nor a score without a text. *)
Theorem parser_result_shape w output s j :
  _extract_score_and_justification w output = Return (s, j) →
  ∃ first text,
    first_candidate output = Some first ∧
    py_getitem_str first "text" = Return text ∧
    if truthy text
    then (s = PyNone ∧ j = PyStr (failed_to_extract w output)) ∨
         (∃ z t, s = PyInt z ∧ j = PyStr t)
    else s = PyNone ∧ j = PyNone.
Proof.
  unfold _extract_score_and_justification. intros H.
  destruct (first_candidate output) as [first|]; [|discriminate].
  destruct (py_getitem_str first "text") as [text|] eqn:Htext; [|discriminate].
  exists first, text. split_and!; [done..|].
  rewrite !bind_Return in H.
  destruct (truthy text); [|by injection H as <- <-].
  apply bind_Return_inv in H as ([s0 j0] & Hrec & H).
  destruct (negb (is_int_or_float s0) || negb (is_str j0)) eqn:Htest;
    injection H as <- <-; [by left|].
  apply orb_false_elim in Htest as [Hs Hj].
  apply negb_false_iff in Hs, Hj.
  right.
  apply recover_Return in Hrec as [[z ->]|[-> _]]; [|discriminate].
  destruct j0; try discriminate. by eauto.
Qed.

Lemma parser_result_shape_witness :
  ∃ z t,
    _extract_score_and_justification (sample_world [])
      (response "score: 3, justification: partially correct")
    = Return (PyInt z, PyStr t).
Proof.
  destruct (parser_result_shape (sample_world [])
              (response "score: 3, justification: partially correct")
              (PyInt 3) (PyStr "partially correct") eq_refl)
    as (first & text & Hf & Ht & H).
  injection Hf as <-. injection Ht as <-. simpl in H.
  destruct H as [[H _]|(z & t & Hz & Ht)]; [discriminate H|].
  exists z, t. by rewrite <-Hz, <-Ht.
Defined.

Lemma row_task_shape w m model args i input output s j :
  (row_task w m model args i input output).1 = Return (s, j) →
  row_shape s j.
Proof.
  unfold row_task, score_model_on_one_payload.
  destruct (_format_args_string _ _ _ _); [|discriminate].
  destruct (eval_prompt_format _ _ _ _); [|discriminate]. simpl.
  destruct (_ ← score_model_on_payload _ _ _ _ _; _) as [r|e] eqn:Hcall.
  - intros [= ->].
    apply bind_Return_inv in Hcall as (raw & _ & Hp).
    by eapply extract_shape.
  - destruct (is_fatal e); [discriminate|]. intros [= <- <-].
    unfold row_shape. eauto 10.
Qed.

Lemma collected_rows_shape w m inputs outputs args model order ss js i s j :
  collect (List.map fst (submitted w m inputs outputs
                           (eval_values_of m args) model))
          order (replicate (length inputs) PyNone)
          (replicate (length inputs) PyNone)
  = Return (ss, js) →
  ss !! i = Some s → js !! i = Some j → row_shape s j.
Proof.
  intros Hc Hs Hj.
  apply collect_Return in Hc as (_ & _ & Hin & Hout).
  destruct (decide (i ∈ order)) as [Hi|Hi].
  - destruct (Hin i Hi) as (s' & j' & Hr & Hs' & Hj').
    rewrite Hs in Hs'. rewrite Hj in Hj'. injection Hs' as <-. injection Hj' as <-.
    rewrite list_lookup_fmap in Hr.
    destruct (submitted _ _ _ _ _ _ !! i) as [t|] eqn:Ht; [|discriminate].
    unfold submitted in Ht. apply list_lookup_imap_Some in Ht as ([a b] & _ & ->).
    injection Hr as Hr. by eapply row_task_shape.
  - destruct (Hout i Hi) as [Hs' Hj']. rewrite Hs in Hs'. rewrite Hj in Hj'.
    symmetry in Hs', Hj'.
    apply lookup_replicate in Hs' as [-> _]. apply lookup_replicate in Hj' as [-> _].
    by left.
Qed.

(** X2.  In every MetricValue [eval_fn] returns, the two lists have one
    entry per input, and every row is (None, None), a null score with a
    text, or an [int] score with a text: there is no score without a
    justification and no score of another type. *)
Theorem metric_value_rows_shape w m predictions inputs args sch mv :
  (eval_fn w m predictions inputs args sch).1 = Return mv →
  length (scores mv) = length inputs ∧
  length (justifications mv) = length inputs ∧
  ∀ i s j,
    scores mv !! i = Some s → justifications mv !! i = Some j →
    row_shape s j.
Proof.
  intros H.
  apply eval_fn_Return in H as (model & _ & _ & _ & Hc & _).
  split_and!.
  - apply collect_Return in Hc as (-> & _). apply length_replicate.
  - apply collect_Return in Hc as (_ & -> & _). apply length_replicate.
  - intros i s j. by eapply collected_rows_shape.
Qed.

Lemma metric_value_rows_shape_witness :
  row_shape PyNone
    (PyStr "Failed to score model on payload. Error: rate limit reached").
Proof.
  refine (proj2 (proj2 (metric_value_rows_shape
           (sample_world [good_answer; fair_answer; rate_limited])
           (sample_metric [] None)
           [PyStr "a"; PyStr "b"; PyStr "c"] [PyStr "a"; PyStr "b"; PyStr "c"]
           [] (Schedule [2; 0; 1] false)
           (mkMetricValue
              [PyInt 4; PyInt 3; PyNone]
              [PyStr "good"; PyStr "partially correct";
               PyStr "Failed to score model on payload. Error: rate limit reached"]
              [])
           eq_refl)) 2 _ _ eq_refl eq_refl).
Defined.

(** ** Which exception a run raises *)

(** X3.  The exception [eval_fn] raises is the one of the first future, in
    completion order, whose task raised: when the futures yielded before
    that of row [i] returned and the task of row [i] raised [e], the run
    raises [e], whether or not the wait would expire later.  Which error the
    caller sees therefore depends on the completion order. *)
Theorem first_failed_future_is_raised
    w m predictions inputs args sch model pre i post input output e :
  eval_model m = PyStr model → (0 < max_workers m)%Z →
  completion_order sch = pre ++ i :: post →
  (∀ k, k ∈ pre →
        ∃ input' output' r,
          inputs !! k = Some input' ∧ predictions !! k = Some output' ∧
          (row_task w m model args k input' output').1 = Return r) →
  inputs !! i = Some input → predictions !! i = Some output →
  (row_task w m model args i input output).1 = Raise e →
  (eval_fn w m predictions inputs args sch).1 = Raise e.
Proof.
  intros Hm Hw Horder Hpre Hi Ho Hr.
  rewrite (eval_fn_unfold _ _ _ _ _ _ model Hm Hw). cbv zeta. simpl.
  rewrite Horder, (collect_first_Raise _ pre i post e); [done| |].
  - by rewrite list_lookup_fmap, (submitted_lookup _ _ _ _ _ _ _ _ _ Hi Ho), <-Hr.
  - intros k Hk. destruct (Hpre k Hk) as (input' & output' & r & Hi' & Ho' & Hr').
    rewrite !length_replicate. apply lookup_lt_Some in Hi' as Hlt.
    split_and!; [done..|]. exists r.
    by rewrite list_lookup_fmap, (submitted_lookup _ _ _ _ _ _ _ _ _ Hi' Ho'),
      <-Hr'.
Qed.

Lemma first_failed_future_is_raised_witness :
  let w := sample_world [good_answer; unauthenticated; good_answer] in
  let m := sample_metric ["targets"] None in
  let rows := [PyStr "a"; PyStr "b"; PyStr "c"] in
  let targets := [[PyStr "t0"; PyStr "t1"]] in
  (eval_fn w m rows rows targets (Schedule [0; 1; 2] false)).1
  = Raise (MlflowException "invalid API key" INTERNAL_ERROR) ∧
  ∃ e, (eval_fn w m rows rows targets (Schedule [0; 2; 1] false)).1 = Raise e ∧
       e ≠ MlflowException "invalid API key" INTERNAL_ERROR.
Proof.
  intros w m rows targets. split.
  - refine (first_failed_future_is_raised w m rows rows targets
              (Schedule [0; 1; 2] false) "openai:/gpt-4" [0] 1 [2]
              (PyStr "b") (PyStr "b") _ eq_refl eq_refl eq_refl _
              eq_refl eq_refl eq_refl).
    intros k Hk. apply list_elem_of_singleton in Hk as ->.
    by exists (PyStr "a"), (PyStr "a"), (PyInt 4, PyStr "good").
  - eexists. split.
    + refine (first_failed_future_is_raised w m rows rows targets
                (Schedule [0; 2; 1] false) "openai:/gpt-4" [0] 2 [1]
                (PyStr "c") (PyStr "c") _ eq_refl eq_refl eq_refl _
                eq_refl eq_refl eq_refl).
      intros k Hk. apply list_elem_of_singleton in Hk as ->.
      by exists (PyStr "a"), (PyStr "a"), (PyInt 4, PyStr "good").
    + by vm_compute.
Defined.

(** X4.  When the wait expires, [eval_fn] never returns a MetricValue: the
    scores already collected are dropped.  If every future yielded before
    the expiry had returned, the exception is the TimeoutError that counts
    the futures still pending. *)
Theorem expired_wait_raises w m predictions inputs args sch model :
  eval_model m = PyStr model → (0 < max_workers m)%Z →
  expired sch = true →
  (∀ mv, (eval_fn w m predictions inputs args sch).1 ≠ Return mv) ∧
  ((∀ k, k ∈ completion_order sch →
         ∃ input output r,
           inputs !! k = Some input ∧ predictions !! k = Some output ∧
           (row_task w m model args k input output).1 = Return r) →
   (eval_fn w m predictions inputs args sch).1
   = Raise (TimeoutError
              (length (zip inputs predictions) - length (completion_order sch))
              (length (zip inputs predictions)))).
Proof.
  intros Hm Hw He. split.
  - intros mv H. apply eval_fn_Return in H as (_ & _ & _ & He' & _). congruence.
  - intros Hall.
    rewrite (eval_fn_unfold _ _ _ _ _ _ model Hm Hw). cbv zeta. simpl.
    destruct (collect_complete
                (List.map fst (submitted w m inputs predictions
                                 (eval_values_of m args) model))
                (completion_order sch)
                (replicate (length inputs) PyNone)
                (replicate (length inputs) PyNone)) as (ss & js & ->).
    { intros k Hk. destruct (Hall k Hk) as (input & output & r & Hi & Ho & Hr).
      rewrite !length_replicate. apply lookup_lt_Some in Hi as Hlt.
      split_and!; [done..|]. exists r.
      by rewrite list_lookup_fmap, (submitted_lookup _ _ _ _ _ _ _ _ _ Hi Ho),
        <-Hr. }
    rewrite He, bind_Return, bind_Raise. unfold submitted.
    by rewrite length_imap.
Qed.

Lemma expired_wait_raises_witness :
  let w := sample_world [good_answer; good_answer; good_answer] in
  let m := sample_metric [] None in
  let rows := [PyStr "a"; PyStr "b"; PyStr "c"] in
  ∃ e, (eval_fn w m rows rows [] (Schedule [2; 0] true)).1 = Raise e ∧
       exn_type e = "TimeoutError" ∧
       exn_str e = "1 (of 3) futures unfinished".
Proof.
  intros w m rows. eexists. split.
  - refine (proj2 (expired_wait_raises w m rows rows [] (Schedule [2; 0] true)
                     "openai:/gpt-4" eq_refl eq_refl eq_refl) _).
    intros k Hk. apply elem_of_cons in Hk as [->|Hk].
    + by exists (PyStr "c"), (PyStr "c"), (PyInt 4, PyStr "good").
    + apply list_elem_of_singleton in Hk as ->.
      by exists (PyStr "a"), (PyStr "a"), (PyInt 4, PyStr "good").
  - by vm_compute.
Defined.

(** ** The judge calls of a run *)

Lemma row_task_calls_payload w m model args i input output :
  (row_task w m model args i input output).2
  = match row_payload w m args i input output with
    | Some p => [(i, p)]
    | None => []
    end.
Proof.
  unfold row_task, score_model_on_one_payload, row_payload.
  destruct (_format_args_string _ _ _ _); [|done].
  by destruct (eval_prompt_format _ _ _ _).
Qed.

Lemma imap_calls_elem {A}
    (F : nat → A → outcome (pyval * pyval) * list judge_call)
    (g : nat → A → option pyval) (l : list A) :
  ∀ n,
    (∀ k a, (F k a).2 = match g k a with
                        | Some p => [(n + k, p)]
                        | None => []
                        end) →
    (∀ i p, (i, p) ∈ concat (List.map snd (imap F l)) ↔
            ∃ k a, i = n + k ∧ l !! k = Some a ∧ g k a = Some p) ∧
    List.map fst (concat (List.map snd (imap F l))) `sublist_of` seq n (length l).
Proof.
  revert F g. induction l as [|a l IH]; intros F g n HF; simpl.
  { split; [|done]. intros i p. split; [by intros H; inversion H|].
    by intros (k & b & _ & H & _). }
  destruct (IH (F ∘ S) (g ∘ S) (S n)) as [IHin IHsub].
  { intros k b. simpl. rewrite HF.
    replace (n + S k) with (S (n + k)) by lia. done. }
  split.
  - intros i p. rewrite elem_of_app, IHin, HF. split.
    + intros [H|(k & b & -> & Hl & Hg)].
      * destruct (g 0 a) as [q|] eqn:Hg; [|by inversion H].
        apply list_elem_of_singleton in H. injection H as -> ->.
        exists 0, a. by rewrite Nat.add_0_r.
      * exists (S k), b. split_and!; [lia|done..].
    + intros ([|k] & b & -> & Hl & Hg).
      * left. simpl in Hl. injection Hl as <-. rewrite Hg, Nat.add_0_r.
        by apply list_elem_of_singleton.
      * right. exists k, b. split_and!; [lia|done..].
  - rewrite map_app, HF.
    destruct (g 0 a); simpl; rewrite ?Nat.add_0_r;
      [by apply sublist_skip | by apply sublist_cons].
Qed.

(** X5.  The judge calls of a run are decided before any result is
    collected: when the model is a string and the pool can be built, the
    judge is called for row [i] with payload [p] exactly when the row has an
    input and a prediction and its payload can be built, and at most once
    per row; this does not depend on what [as_completed] does, nor on the
    failure of other rows.  Otherwise no call is made. *)
Theorem judge_calls_of_a_run w m predictions inputs args sch :
  (∀ model,
      eval_model m = PyStr model → (0 < max_workers m)%Z →
      (∀ i p,
          (i, p) ∈ (eval_fn w m predictions inputs args sch).2 ↔
          ∃ input output,
            inputs !! i = Some input ∧ predictions !! i = Some output ∧
            row_payload w m args i input output = Some p) ∧
      NoDup (List.map fst (eval_fn w m predictions inputs args sch).2)) ∧
  ((∀ model, eval_model m ≠ PyStr model) ∨ (max_workers m ≤ 0)%Z →
   (eval_fn w m predictions inputs args sch).2 = []) ∧
  (∀ sch', (eval_fn w m predictions inputs args sch').2
           = (eval_fn w m predictions inputs args sch).2).
Proof.
  split_and!.
  - intros model Hm Hw.
    rewrite (eval_fn_unfold _ _ _ _ _ _ model Hm Hw). cbv zeta. simpl.
    unfold submitted.
    destruct (imap_calls_elem
                (λ indx io, score_model_on_one_payload w m indx io.1 io.2
                              (grading_context_columns m) (eval_values_of m args)
                              (eval_parameters m) model)
                (λ indx io, row_payload w m args indx io.1 io.2)
                (zip inputs predictions) 0) as [Hin Hsub].
    { intros k [a b]. apply (row_task_calls_payload w m model args k a b). }
    split.
    + intros i p. rewrite Hin. split.
      * intros (k & [a b] & -> & Hl & Hg).
        apply lookup_zip_with_Some in Hl as (a' & b' & [= <- <-] & Ha & Hb).
        by exists a, b.
      * intros (a & b & Ha & Hb & Hg). exists i, (a, b).
        split_and!; [done| |done].
        by rewrite lookup_zip_with, Ha, Hb.
    + eapply sublist_NoDup; [apply NoDup_seq | exact Hsub].
  - intros Hpre. unfold eval_fn.
    destruct (eval_model m) as [ | | | | model | | ]; try done.
    destruct Hpre as [Hne|Hw]; [by destruct (Hne model)|].
    by destruct (Z.leb_spec (max_workers m) 0); [|lia].
  - intros sch'. unfold eval_fn.
    destruct (eval_model m); try done.
    by destruct (Z.leb (max_workers m) 0).
Qed.

Lemma judge_calls_of_a_run_witness :
  let w := sample_world [good_answer; unauthenticated; good_answer] in
  let m := sample_metric ["targets"] None in
  let rows := [PyStr "a"; PyStr "b"; PyStr "c"] in
  let targets := [[PyStr "t0"; PyStr "t1"]] in
  List.map fst (eval_fn w m rows rows targets (Schedule [1] true)).2 = [0; 1] ∧
  NoDup (List.map fst (eval_fn w m rows rows targets (Schedule [1] true)).2).
Proof.
  intros w m rows targets. split; [by vm_compute|].
  exact (proj2 (proj1 (judge_calls_of_a_run w m rows rows targets
                         (Schedule [1] true))
                  "openai:/gpt-4" eq_refl eq_refl)).
Defined.

(** ** The aggregate results *)

Lemma dict_get_set_eq {A} k (v : A) d : dict_get k (dict_set k v d) = Some v.
Proof.
  induction d as [|[k' v'] d IH]; simpl.
  - by rewrite String.eqb_refl.
  - destruct (String.eqb_spec k k') as [->|Hne]; simpl.
    + by rewrite String.eqb_refl.
    + by destruct (String.eqb_spec k k').
Qed.

Lemma dict_get_set_ne {A} k k' (v : A) d :
  k ≠ k' → dict_get k' (dict_set k v d) = dict_get k' d.
Proof.
  intros Hne. induction d as [|[k0 v0] d IH]; simpl.
  - by destruct (String.eqb_spec k' k); [congruence|].
  - destruct (String.eqb_spec k k0) as [->|Hk]; simpl.
    + by destruct (String.eqb_spec k' k0); [congruence|].
    + by destruct (String.eqb_spec k' k0).
Qed.

Lemma aggregate_all_lookup w scores aggs :
  ∀ acc r,
    aggregate_all w aggs scores acc = Return r →
    ∀ a, dict_get a r
         = if decide (a ∈ aggs)
           then match aggregate_function w a scores with
                | Return v => Some v
                | Raise _ => None
                end
           else dict_get a acc.
Proof.
  induction aggs as [|o aggs IH]; intros acc r H a; simpl in H.
  { injection H as <-. by destruct (decide (a ∈ [])) as [Hin|]; [inversion Hin|]. }
  apply bind_Return_inv in H as (v & Hv & H).
  rewrite (IH _ _ H a).
  destruct (decide (a ∈ aggs)) as [Hin|Hnin].
  - by rewrite decide_True by (by right).
  - destruct (decide (a = o)) as [->|Hne].
    + rewrite decide_True by (by left). by rewrite Hv, dict_get_set_eq.
    + rewrite decide_False by (by intros [?|?]%elem_of_cons).
      by rewrite dict_get_set_ne.
Qed.

(** X6.  The aggregates of a MetricValue have one entry for each name
    requested and no other: the entry of a requested name is that
    statistic of the scores that are not None, taken in row order, and a
    name that was not requested has no entry.  With [aggregations=None]
    there is no entry at all. *)
Theorem aggregate_results_entries w m predictions inputs args sch mv :
  (eval_fn w m predictions inputs args sch).1 = Return mv →
  match aggregations m with
  | Some aggs =>
      ∀ a,
        (a ∈ aggs →
         ∃ v, aggregate_function w a (List.filter is_not_None (scores mv))
              = Return v ∧
              dict_get a (aggregate_results mv) = Some v) ∧
        (a ∉ aggs → dict_get a (aggregate_results mv) = None)
  | None => aggregate_results mv = []
  end.
Proof.
  intros H. apply eval_fn_Return in H as (_ & _ & _ & _ & _ & Hagg).
  unfold aggregate_after in Hagg.
  destruct (aggregations m) as [aggs|]; [|by injection Hagg].
  intros a. pose proof (aggregate_all_lookup _ _ _ _ _ Hagg a) as Hget.
  split; intros Ha.
  - rewrite decide_True in Hget by done.
    destruct (aggregate_all_Return _ _ _ _ _ Hagg a Ha) as [v Hv].
    rewrite Hv in Hget. by exists v.
  - by rewrite decide_False in Hget by done.
Qed.

Lemma aggregate_results_entries_witness :
  let mv := mkMetricValue
              [PyInt 4; PyInt 3; PyNone]
              [PyStr "good"; PyStr "partially correct";
               PyStr "Failed to score model on payload. Error: rate limit reached"]
              [("min", PyInt 3); ("max", PyInt 4)] in
  (∃ v, aggregate_function
          (sample_world [good_answer; fair_answer; rate_limited]) "max"
          [PyInt 4; PyInt 3] = Return v ∧
        dict_get "max" (aggregate_results mv) = Some v) ∧
  dict_get "mean" (aggregate_results mv) = None.
Proof.
  intros mv.
  pose proof (aggregate_results_entries
                (sample_world [good_answer; fair_answer; rate_limited])
                (sample_metric [] (Some ["min"; "max"; "min"]))
                [PyStr "a"; PyStr "b"; PyStr "c"]
                [PyStr "a"; PyStr "b"; PyStr "c"] []
                (Schedule [2; 0; 1] false) mv eq_refl) as H.
  simpl in H. split.
  - apply (H "max"). by apply (bool_decide_unpack _).
  - apply (H "mean"). by apply (bool_decide_unpack _).
Defined.

(** ** What numpy is given *)

Lemma filter_scores_int w m inputs outputs args model order ss js :
  collect (List.map fst (submitted w m inputs outputs
                           (eval_values_of m args) model))
          order (replicate (length inputs) PyNone)
          (replicate (length inputs) PyNone)
  = Return (ss, js) →
  Forall is_int (List.filter is_not_None ss).
Proof.
  intros Hc. apply List.Forall_forall. intros s Hs.
  apply List.filter_In in Hs as [Hs Hnn].
  apply list_elem_of_In, list_elem_of_lookup in Hs as [i Hi].
  assert (is_Some (js !! i)) as [j Hj].
  { apply lookup_lt_is_Some. apply collect_Return in Hc as (Hls & Hlj & _).
    rewrite Hlj, length_replicate, <-(length_replicate (length inputs) PyNone),
      <-Hls. by eapply lookup_lt_Some. }
  destruct (collected_rows_shape _ _ _ _ _ _ _ _ _ _ _ _ Hc Hi Hj)
    as [[-> _]|[[-> _]|(z & t & -> & _)]]; [discriminate..|by eexists].
Qed.

Lemma aggregate_all_with_numpy w np x aggs :
  (x ≠ [] → ∀ f, np f x = numpy_nonempty w f x) →
  ∀ acc, aggregate_all (with_numpy w np) aggs x acc = aggregate_all w aggs x acc.
Proof.
  intros Hnp. induction aggs as [|a aggs IH]; intros acc; [done|]. simpl.
  assert (aggregate_function (with_numpy w np) a x = aggregate_function w a x)
    as ->.
  { unfold aggregate_function. destruct (dict_get a options) as [f|]; [|done].
    unfold np_apply. destruct x as [|v x]; [done|]. simpl. by apply Hnp. }
  destruct (aggregate_function w a x); [|done]. simpl. apply IH.
Qed.

(** X7.  numpy is never given a None, nor a score that is not an [int]:
    the None scores are filtered out and the parser lets no other type
    through.  What numpy does on other lists than the non-empty lists of
    integers therefore changes no run (its answer on the empty list is the
    one fixed in [np_apply]). *)
Theorem numpy_is_given_ints w np m predictions inputs args sch :
  (∀ f x, x ≠ [] → Forall is_int x → np f x = numpy_nonempty w f x) →
  eval_fn (with_numpy w np) m predictions inputs args sch
  = eval_fn w m predictions inputs args sch.
Proof.
  intros Hnp. unfold eval_fn.
  destruct (eval_model m) as [ | | | | model | | ]; try done.
  destruct (Z.leb (max_workers m) 0); [done|]. cbv zeta.
  change (submitted (with_numpy w np) m inputs predictions
            (dict_of (zip (grading_context_columns m) args)) model)
    with (submitted w m inputs predictions (eval_values_of m args) model).
  change (dict_of (zip (grading_context_columns m) args))
    with (eval_values_of m args).
  f_equal.
  destruct (collect _ _ _ _) as [[ss js]|e] eqn:Hc; [|done]. simpl.
  destruct (expired sch); [done|]. simpl.
  destruct (aggregations m) as [aggs|]; [|done].
  rewrite aggregate_all_with_numpy; [done|].
  intros Hne f. apply Hnp; [done|]. by eapply filter_scores_int.
Qed.

Lemma numpy_is_given_ints_witness :
  let w := sample_world [good_answer; fair_answer; rate_limited] in
  let m := sample_metric [] (Some ["min"; "max"]) in
  let rows := [PyStr "a"; PyStr "b"; PyStr "c"] in
  eval_fn (with_numpy w guarded_numpy) m rows rows [] (in_order 3)
  = eval_fn w m rows rows [] (in_order 3).
Proof.
  intros w m rows.
  apply (numpy_is_given_ints w guarded_numpy m rows rows [] (in_order 3)).
  intros f x Hne Hint. unfold guarded_numpy.
  destruct x as [|v x]; [done|]. simpl.
  replace (is_intb v && forallb is_intb x) with true; [done|].
  symmetry. change (forallb is_intb (v :: x) = true).
  apply forallb_forall. intros y Hy.
  by destruct (proj1 (List.Forall_forall _ _) Hint y Hy) as [z ->].
Defined.

(** ** The payload *)

Lemma dict_get_notin {A} k (d : list (string * A)) :
  k ∉ List.map fst d → dict_get k d = None.
Proof.
  induction d as [|[k' v] d IH]; [done|]. simpl. intros Hk.
  destruct (String.eqb_spec k k') as [->|Hne].
  - destruct Hk. by left.
  - apply IH. intros H. apply Hk. by right.
Qed.

Lemma dict_get_update {A} k (d2 : list (string * A)) :
  NoDup (List.map fst d2) →
  ∀ d1, dict_get k (dict_update d1 d2)
        = match dict_get k d2 with
          | Some v => Some v
          | None => dict_get k d1
          end.
Proof.
  unfold dict_update.
  induction d2 as [|[k' v] d2 IH]; intros Hnd d1; [done|].
  simpl in Hnd. apply NoDup_cons in Hnd as [Hk' Hnd]. simpl.
  rewrite (IH Hnd).
  destruct (String.eqb_spec k k') as [->|Hne].
  - by rewrite (dict_get_notin _ _ Hk'), dict_get_set_eq.
  - destruct (dict_get k d2); [done|]. by rewrite dict_get_set_ne.
Qed.

(** X8.  Every payload sent to the judge is a dict that carries each of
    the metric's parameters unchanged, under its own key.  Its ["prompt"]
    is the formatted prompt of the row, unless the parameters have a
    ["prompt"] entry of their own, which then replaces the prompt. *)
Theorem payload_carries_parameters w m model args i input output call :
  NoDup (List.map fst (eval_parameters m)) →
  call ∈ (row_task w m model args i input output).2 →
  ∃ arg_string prompt d,
    _format_args_string w (grading_context_columns m) (eval_values_of m args) i
    = Return arg_string ∧
    eval_prompt_format w input output arg_string = Return prompt ∧
    call = (i, PyDict d) ∧
    (∀ k v, dict_get k (eval_parameters m) = Some v → dict_get k d = Some v) ∧
    (dict_get "prompt" (eval_parameters m) = None →
     dict_get "prompt" d = Some (PyStr prompt)) ∧
    (∀ k, k ≠ "prompt" → dict_get k (eval_parameters m) = None →
          dict_get k d = None).
Proof.
  intros Hnd. unfold row_task, score_model_on_one_payload.
  destruct (_format_args_string _ _ _ _) as [arg_string|];
    [|by intros H; inversion H].
  destruct (eval_prompt_format _ _ _ _) as [prompt|] eqn:Hprompt;
    [|by intros H; inversion H].
  cbv zeta. simpl. intros ->%list_elem_of_singleton.
  exists arg_string, prompt,
    (dict_update [("prompt", PyStr prompt)] (eval_parameters m)).
  split_and!; [done..| | |].
  - intros k v Hk. by rewrite (dict_get_update _ _ Hnd), Hk.
  - intros Hk. by rewrite (dict_get_update _ _ Hnd), Hk.
  - intros k Hne Hk. rewrite (dict_get_update _ _ Hnd), Hk. simpl.
    by destruct (String.eqb_spec k "prompt").
Qed.

Lemma payload_carries_parameters_witness :
  ∃ d,
    (row_task (sample_world [good_answer]) (sample_metric [] None)
       "openai:/gpt-4" [] 0 (PyStr "a") (PyStr "b")).2 = [(0, PyDict d)] ∧
    dict_get "max_tokens" d = Some (PyInt 200).
Proof.
  destruct (payload_carries_parameters (sample_world [good_answer])
              (sample_metric [] None) "openai:/gpt-4" [] 0 (PyStr "a") (PyStr "b")
              (0, payload_of (sample_metric [] None)
                    ("Input: a" +:+ NL +:+ "Output: b" +:+ NL
                     +:+ "Additional information used by the model:" +:+ NL)))
    as (arg_string & prompt & d & _ & _ & Hcall & Hkeep & _).
  - by apply (bool_decide_unpack _).
  - apply list_elem_of_singleton. reflexivity.
  - exists d. split.
    + injection Hcall as <-. reflexivity.
    + by apply Hkeep.
Defined.

(** ** The grading columns *)

Lemma zip_keys_notin {A} c (cols : list string) (args : list A) :
  c ∉ cols → c ∉ List.map fst (zip cols args).
Proof.
  revert args. induction cols as [|c0 cols IH]; intros [|a args] Hc;
    simpl; try by intros H; inversion H.
  intros H. apply elem_of_cons in H as [->|H].
  - apply Hc. by left.
  - apply (IH args); [|done]. intros Hin. apply Hc. by right.
Qed.

Lemma zip_keys_NoDup {A} (cols : list string) (args : list A) :
  NoDup cols → NoDup (List.map fst (zip cols args)).
Proof.
  revert args. induction cols as [|c0 cols IH]; intros [|a args] Hnd;
    simpl; try apply NoDup_nil_2.
  apply NoDup_cons in Hnd as [Hc Hnd].
  apply NoDup_cons_2; [by apply zip_keys_notin | by apply IH].
Qed.

Lemma dict_get_zip {A} (cols : list string) (args : list A) k c :
  NoDup cols → cols !! k = Some c → dict_get c (zip cols args) = args !! k.
Proof.
  revert args k. induction cols as [|c0 cols IH]; intros [|a args] k Hnd Hk;
    try done.
  apply NoDup_cons in Hnd as [Hc Hnd]. destruct k as [|k]; simpl in *.
  - injection Hk as ->. by rewrite String.eqb_refl.
  - destruct (String.eqb_spec c c0) as [->|Hne].
    + destruct Hc. by eapply list_elem_of_lookup_2.
    + by apply IH.
Qed.

Lemma eval_values_lookup m args :
  NoDup (grading_context_columns m) →
  ∀ c, dict_get c (eval_values_of m args)
       = dict_get c (zip (grading_context_columns m) args).
Proof.
  intros Hnd c. unfold eval_values_of.
  change (dict_of (zip (grading_context_columns m) args))
    with (dict_update [] (zip (grading_context_columns m) args)).
  rewrite (dict_get_update _ _ (zip_keys_NoDup _ args Hnd)).
  by destruct (dict_get c _).
Qed.

(** X9.  [eval_fn] binds the grading columns to its extra positional
    arguments by position: with distinct columns, the column declared at
    place [k] is the argument at place [k], a column declared beyond the
    arguments given is absent from [eval_values], and so is every name
    that is not a declared column. *)
Theorem columns_bind_by_position m args :
  NoDup (grading_context_columns m) →
  (∀ k c, grading_context_columns m !! k = Some c →
          dict_get c (eval_values_of m args) = args !! k) ∧
  (∀ c, c ∉ grading_context_columns m →
        dict_get c (eval_values_of m args) = None).
Proof.
  intros Hnd. split.
  - intros k c Hk.
    by rewrite (eval_values_lookup _ _ Hnd), (dict_get_zip _ _ _ _ Hnd Hk).
  - intros c Hc.
    by rewrite (eval_values_lookup _ _ Hnd),
      (dict_get_notin _ _ (zip_keys_notin _ _ args Hc)).
Qed.

Lemma columns_bind_by_position_witness :
  let m := sample_metric ["targets"; "context"] None in
  dict_get "targets" (eval_values_of m [[PyStr "t0"; PyStr "t1"]])
  = Some [PyStr "t0"; PyStr "t1"] ∧
  dict_get "context" (eval_values_of m [[PyStr "t0"; PyStr "t1"]]) = None.
Proof.
  intros m.
  assert (NoDup (grading_context_columns m)) as Hnd
    by by apply (bool_decide_unpack _).
  split.
  - exact (proj1 (columns_bind_by_position m [[PyStr "t0"; PyStr "t1"]] Hnd)
             0 "targets" eq_refl).
  - exact (proj1 (columns_bind_by_position m [[PyStr "t0"; PyStr "t1"]] Hnd)
             1 "context" eq_refl).
Defined.

Lemma zip_surplus {A B} (l : list A) (k k' : list B) :
  length l ≤ length k → zip l (k ++ k') = zip l k.
Proof.
  revert k. induction l as [|a l IH]; intros [|b k] Hlen; simpl in *;
    [done|done|lia|].
  f_equal. apply IH. lia.
Qed.

(** X10.  Positional arguments beyond the declared grading columns are
    never read: a run with surplus arguments is the run without them. *)
Theorem surplus_arguments_are_ignored w m predictions inputs args extra sch :
  length (grading_context_columns m) ≤ length args →
  eval_fn w m predictions inputs (args ++ extra) sch
  = eval_fn w m predictions inputs args sch.
Proof.
  intros Hlen. unfold eval_fn. by rewrite (zip_surplus _ _ _ Hlen).
Qed.

Lemma surplus_arguments_are_ignored_witness :
  let w := sample_world [good_answer] in
  let m := sample_metric ["targets"] None in
  eval_fn w m [PyStr "a"] [PyStr "b"] ([[PyStr "t0"]] ++ [[PyInt 7]; []])
    (in_order 1)
  = eval_fn w m [PyStr "a"] [PyStr "b"] [[PyStr "t0"]] (in_order 1).
Proof.
  intros w m.
  apply (surplus_arguments_are_ignored w m [PyStr "a"] [PyStr "b"]
           [[PyStr "t0"]] [[PyInt 7]; []] (in_order 1)).
  simpl. lia.
Defined.

(** ** The text of the grading context *)








(** ** The regular expression of the fallback *)















(** ** Which part of the response the parser reads *)

Lemma recover_same_text w o1 o2 text :
  match recover_score_and_justification w o1 text,
        recover_score_and_justification w o2 text with
  | Return (s1, j1), Return (s2, j2) =>
      s1 = s2 ∧
      (j1 = j2 ∨
       s1 = PyNone ∧ j1 = PyStr (failed_to_extract w o1) ∧
       j2 = PyStr (failed_to_extract w o2))
  | Raise e1, Raise e2 => e1 = e2
  | _, _ => False
  end.
Proof.
  unfold recover_score_and_justification.
  destruct (_ ← json_loads text; _) as [[s j]|e]; [by auto|].
  destruct (String.eqb _ _); [|done].
  destruct text as [ | | | | t | | ]; try done.
  destruct (re_search score_pattern t) as [mo|]; [|by auto].
  destruct (py_int _) as [s|e']; simpl; by auto.
Qed.

(** X13.  The parser reads nothing but the ["text"] of the first
    candidate: two responses whose first candidates have the same text
    get the same score, or raise the same exception, whatever else they
    hold (further candidates, other keys); the justifications are the
    same as well, except for the diagnostic, which quotes the whole
    response. *)
Theorem parser_reads_first_candidate w o1 o2 first1 first2 :
  first_candidate o1 = Some first1 →
  first_candidate o2 = Some first2 →
  py_getitem_str first1 "text" = py_getitem_str first2 "text" →
  match _extract_score_and_justification w o1,
        _extract_score_and_justification w o2 with
  | Return (s1, j1), Return (s2, j2) =>
      s1 = s2 ∧
      (j1 = j2 ∨
       s1 = PyNone ∧ j1 = PyStr (failed_to_extract w o1) ∧
       j2 = PyStr (failed_to_extract w o2))
  | Raise e1, Raise e2 => e1 = e2
  | _, _ => False
  end.
Proof.
  intros H1 H2 Htext. unfold _extract_score_and_justification.
  rewrite H1, H2, Htext.
  destruct (py_getitem_str first2 "text") as [text|e]; [|done].
  rewrite !bind_Return. destruct (truthy text); [|by auto].
  pose proof (recover_same_text w o1 o2 text) as Hrec.
  destruct (recover_score_and_justification w o1 text) as [[s1 j1]|e1],
           (recover_score_and_justification w o2 text) as [[s2 j2]|e2];
    try done.
  destruct Hrec as [<- [<-|(-> & -> & ->)]]; rewrite !bind_Return.
  - destruct (negb (is_int_or_float s1) || negb (is_str j1)); by auto.
  - simpl. by auto.
Qed.

Lemma parser_reads_first_candidate_witness :
  let o1 := response (dq "{'score': 4, 'justification': 'good'}") in
  let o2 := PyDict [("candidates",
                     PyList [PyDict [("text",
                                      PyStr (dq "{'score': 4, 'justification': 'good'}"));
                                     ("index", PyInt 0)];
                             PyDict [("text", PyStr "score: 1, justification: bad")]]);
                    ("metadata", PyNone)] in
  _extract_score_and_justification (sample_world []) o2
  = Return (PyInt 4, PyStr "good").
Proof.
  intros o1 o2.
  pose proof (parser_reads_first_candidate (sample_world []) o1 o2 _ _
                eq_refl eq_refl eq_refl) as H.
  destruct (_extract_score_and_justification (sample_world []) o2)
    as [[s2 j2]|e2]; [|by vm_compute in H].
  change (_extract_score_and_justification (sample_world []) o1)
    with (Return (A:=pyval * pyval) (PyInt 4, PyStr "good")) in H.
  destruct H as [<- [<-|(H & _)]]; [done|discriminate H].
Defined.

(** ** The signature that [make_genai_metric] gives [eval_fn] *)

Lemma inspect_Parameter_Return h c p :
  inspect_Parameter h c = Return p →
  if implicit_name h c then kind p = POSITIONAL_ONLY
  else valid_name h c ∧ p = mkParameter c POSITIONAL_OR_KEYWORD.
Proof.
  unfold inspect_Parameter, valid_name, implicit_name.
  destruct c as [|a rest]; [discriminate|].
  destruct (Ascii.eqb a "." && isdigit h rest).
  - cbv zeta. destruct (negb _); [discriminate|]. by intros [= <-].
  - destruct (iskeyword h _) eqn:Hk; [discriminate|].
    destruct (isidentifier h _) eqn:Hi; [|discriminate].
    by intros [= <-].
Qed.

Lemma columns_parameters h cols ps :
  Forall2 (λ c p, inspect_Parameter h c = Return p) cols ps →
  Forall (λ p, kind p = POSITIONAL_OR_KEYWORD) ps →
  Forall (valid_name h) cols ∧
  ps = List.map (λ c, mkParameter c POSITIONAL_OR_KEYWORD) cols.
Proof.
  induction 1 as [|c p cols ps Hp _ IH]; intros Hk; [done|].
  apply Forall_cons in Hk as [Hk Hks]. destruct (IH Hks) as [Hv ->].
  apply inspect_Parameter_Return in Hp.
  destruct (implicit_name h c); [congruence|]. destruct Hp as [Hc ->].
  split; [by constructor|done].
Qed.

Lemma inspect_Parameter_valid h c :
  valid_name h c →
  inspect_Parameter h c = Return (mkParameter c POSITIONAL_OR_KEYWORD).
Proof.
  unfold inspect_Parameter, valid_name, implicit_name.
  intros (Hne & Himp & Hk & Hi). destruct c as [|a rest]; [done|].
  by rewrite Himp, Hk, Hi.
Qed.

Lemma append_parameters_Return h cols :
  ∀ acc r,
    append_parameters h cols acc = Return r →
    ∃ ps, r = acc ++ ps ∧
          Forall2 (λ c p, inspect_Parameter h c = Return p) cols ps.
Proof.
  induction cols as [|c cols IH]; intros acc r H; simpl in H.
  - injection H as <-. exists []. by rewrite app_nil_r.
  - apply bind_Return_inv in H as (p & Hp & H).
    apply IH in H as (ps & -> & Hps). exists (p :: ps).
    split; [by rewrite <-app_assoc | by constructor].
Qed.

Lemma append_parameters_valid h cols :
  Forall (valid_name h) cols →
  ∀ acc,
    append_parameters h cols acc
    = Return (acc ++ List.map (λ c, mkParameter c POSITIONAL_OR_KEYWORD) cols).
Proof.
  induction 1 as [|c cols Hc _ IH]; intros acc; simpl.
  - by rewrite app_nil_r.
  - rewrite (inspect_Parameter_valid _ _ Hc), bind_Return, IH.
    by rewrite <-app_assoc.
Qed.

Lemma existsb_eqb_elem (n : string) (l : list string) :
  existsb (String.eqb n) l = true ↔ n ∈ l.
Proof.
  rewrite existsb_exists. split.
  - intros (x & Hx & ->%String.eqb_eq). by apply list_elem_of_In.
  - intros H. exists n. split; [by apply list_elem_of_In | apply String.eqb_refl].
Qed.

Lemma validate_parameters_keyword ps :
  ∀ seen,
    NoDup seen →
    (validate_parameters ps POSITIONAL_OR_KEYWORD seen = Return tt ↔
     Forall (λ p, kind p = POSITIONAL_OR_KEYWORD) ps ∧
     NoDup (seen ++ List.map parameter_name ps)).
Proof.
  induction ps as [|[n k] ps IH]; intros seen Hseen; simpl.
  { rewrite app_nil_r. by split; [|]. }
  destruct k; simpl.
  { split; [discriminate|]. intros [Hk _]. by inversion Hk. }
  destruct (existsb (String.eqb n) seen) eqn:Hn.
  - apply existsb_eqb_elem in Hn. split; [discriminate|].
    intros [_ Hnd]. apply NoDup_app in Hnd as (_ & Hdis & _).
    destruct (Hdis n Hn). by left.
  - assert (n ∉ seen) as Hnotin.
    { intros Hin. apply existsb_eqb_elem in Hin. congruence. }
    assert (NoDup (seen ++ [n])) as Hseen'.
    { apply NoDup_app. split_and!; [done| |apply NoDup_singleton].
      by intros x Hx ->%list_elem_of_singleton. }
    rewrite (IH _ Hseen'), <-app_assoc. simpl.
    split; intros [Hk Hnd]; (split; [|done]).
    + by constructor.
    + by inversion Hk.
Qed.

Lemma make_genai_metric_Return
    h name definition grading_prompt examples version model cols parameters
    aggregations greater_is_better max_workers judge_request_timeout call :
  make_genai_metric h name definition grading_prompt examples version model
    cols parameters aggregations greater_is_better max_workers
    judge_request_timeout = Return call →
  ∃ cls ctx details,
    _get_class_from_string h
      ("mlflow.metrics.genai.prompts." +:+ version +:+ ".EvaluationModel")
    = Return cls ∧
    cls ([PyStr name; PyStr definition; PyStr grading_prompt; examples; model]
         ++ match parameters with
            | Some p => [PyDict p]
            | None => []
            end) = Return ctx ∧
    eval_prompt_str ctx = Return details ∧
    Forall (valid_name h) (eval_fn_parameters ++ cols) ∧
    NoDup (eval_fn_parameters ++ cols) ∧
    call = MakeMetric
             (Metric name cols aggregations max_workers judge_request_timeout
                     (context_model ctx) (context_parameters ctx))
             (List.map (λ c, mkParameter c POSITIONAL_OR_KEYWORD)
                       (eval_fn_parameters ++ cols))
             greater_is_better name version details.
Proof.
  unfold make_genai_metric. cbv zeta. intros H.
  apply bind_Return_inv in H as (cls & Hcls & H).
  apply bind_Return_inv in H as (ctx & Hctx & H).
  apply bind_Return_inv in H as (p1 & Hp1 & H).
  apply bind_Return_inv in H as (p2 & Hp2 & H).
  apply bind_Return_inv in H as (p3 & Hp3 & H).
  apply bind_Return_inv in H as (sp & Hsp & H).
  apply bind_Return_inv in H as (sig & Hsig & H).
  apply bind_Return_inv in H as (details & Hdetails & H).
  injection H as <-.
  destruct (_get_class_from_string h _) as [cls'|e] eqn:Hload;
    [|by destruct (String.eqb _ _)].
  injection Hcls as ->.
  apply inspect_Parameter_Return in Hp1 as [Hv1 ->].
  apply inspect_Parameter_Return in Hp2 as [Hv2 ->].
  apply inspect_Parameter_Return in Hp3 as [Hv3 ->].
  apply append_parameters_Return in Hsp as (ps & -> & Hps).
  unfold inspect_Signature in Hsig.
  apply bind_Return_inv in Hsig as ([] & Hval & [= <-]).
  simpl in Hval.
  apply (validate_parameters_keyword _ eval_fn_parameters) in Hval
    as [Hk Hnd]; [|by apply (bool_decide_unpack _)].
  destruct (columns_parameters _ _ _ Hps Hk) as [Hv ->].
  exists cls, ctx, details. split_and!; [done..| | |done].
  - by repeat (constructor; [done|]).
  - rewrite List.map_map in Hnd. simpl in Hnd.
    by rewrite List.map_id in Hnd.
Qed.

(** X14.  [make_genai_metric] gets to build its metric exactly when the
    loader finds the class of the version, the class builds its context,
    the prompt prints, and the names [predictions], [metrics], [inputs] and
    the grading columns are all distinct identifiers, none of them empty,
    of the form [.N] or a keyword.  A grading column that is given twice,
    or is named like one of the first three parameters of [eval_fn], makes
    [make_genai_metric] raise; the [eval_fn] it builds has distinct
    columns, one parameter for each of them after the first three, and
    reads the model and the parameters of the context, not the arguments
    [model] and [parameters]. *)
Theorem make_genai_metric_returns
    h name definition grading_prompt examples version model cols parameters
    aggregations greater_is_better max_workers judge_request_timeout call :
  make_genai_metric h name definition grading_prompt examples version model
    cols parameters aggregations greater_is_better max_workers
    judge_request_timeout = Return call ↔
  ∃ cls ctx details,
    _get_class_from_string h
      ("mlflow.metrics.genai.prompts." +:+ version +:+ ".EvaluationModel")
    = Return cls ∧
    cls ([PyStr name; PyStr definition; PyStr grading_prompt; examples; model]
         ++ match parameters with
            | Some p => [PyDict p]
            | None => []
            end) = Return ctx ∧
    eval_prompt_str ctx = Return details ∧
    Forall (valid_name h) (eval_fn_parameters ++ cols) ∧
    NoDup (eval_fn_parameters ++ cols) ∧
    call = MakeMetric
             (Metric name cols aggregations max_workers judge_request_timeout
                     (context_model ctx) (context_parameters ctx))
             (List.map (λ c, mkParameter c POSITIONAL_OR_KEYWORD)
                       (eval_fn_parameters ++ cols))
             greater_is_better name version details.
Proof.
  split; [apply make_genai_metric_Return|].
  unfold make_genai_metric. cbv zeta.
  intros (cls & ctx & details & -> & Hctx & Hdetails & Hv & Hnd & ->).
  rewrite bind_Return, Hctx, bind_Return.
  apply Forall_cons in Hv as [Hv1 Hv]. apply Forall_cons in Hv as [Hv2 Hv].
  apply Forall_cons in Hv as [Hv3 Hv].
  rewrite !inspect_Parameter_valid, !bind_Return by done.
  rewrite (append_parameters_valid _ _ Hv), bind_Return.
  unfold inspect_Signature.
  assert (validate_parameters
            ([mkParameter "predictions" POSITIONAL_OR_KEYWORD;
              mkParameter "metrics" POSITIONAL_OR_KEYWORD;
              mkParameter "inputs" POSITIONAL_OR_KEYWORD]
             ++ List.map (λ c, mkParameter c POSITIONAL_OR_KEYWORD) cols)
            POSITIONAL_ONLY [] = Return tt) as ->.
  { simpl.
    apply (validate_parameters_keyword _ eval_fn_parameters);
      [by apply (bool_decide_unpack _)|].
    split.
    - apply Forall_forall. by intros p (c & -> & _)%list_elem_of_fmap.
    - rewrite List.map_map. simpl. by rewrite List.map_id. }
  by rewrite bind_Return, Hdetails.
Qed.

Lemma make_genai_metric_returns_witness :
  (∃ call,
     make_genai_metric sample_host "answer_correctness" "definition"
       "grading prompt" PyNone "v1" (PyStr "openai:/gpt-4") ["targets"] None
       (Some ["mean"]) true 10 60 = Return call ∧
     List.map parameter_name (call_signature call)
     = ["predictions"; "metrics"; "inputs"; "targets"]) ∧
  (∀ call,
     make_genai_metric sample_host "answer_correctness" "definition"
       "grading prompt" PyNone "v1" (PyStr "openai:/gpt-4")
       ["targets"; "inputs"] None (Some ["mean"]) true 10 60 ≠ Return call).
Proof.
  split.
  - eexists. split.
    + apply make_genai_metric_returns. eexists _, _, _.
      split_and!; [reflexivity..| | |reflexivity].
      * by repeat (constructor; [by vm_compute|]).
      * by apply (bool_decide_unpack _).
    + reflexivity.
  - intros call H.
    apply make_genai_metric_returns
      in H as (_ & _ & _ & _ & _ & _ & _ & Hnd & _).
    apply (bool_decide_pack _) in Hnd. by vm_compute in Hnd.
Defined.



(** ** The structured branch of the parser *)


